(** * KMZ-Poly-Parsing: the polygon area pipeline of [parse_polygons_to_csv.py]

    A shallow embedding of the script's functions and of the body of [main],
    and the properties of the pipeline proved over it.

    Conventions of the embedding.
    - A Python [str] is a [string]; a character is its code point, so the
      development covers text whose code points are below 256.  The
      character classes ([str.isspace], [str.lower], the regular
      expression classes) are the Unicode ones restricted to that range.
    - A Python [float] is an IEEE 754 binary64 number, [PrimFloat.float].
    - A raised exception is the [Raise] case of [result]; what [main] logs
      and what it hands to the geometry libraries is an [event] of the
      trace.
    - The calls into shapely and pyproj, the builtin [sum] and the path of
      the report are parameters of [Section Pipeline]; [float_sum] is the
      builtin on a list of floats. *)

From Stdlib Require Import ZArith NArith Bool List String Ascii DecimalString Lia.
From Stdlib Require Import PrimFloat SpecFloat FloatOps.
Import ListNotations.

Set Warnings "-inexact-float,-register-all".

Local Open Scope string_scope.
Local Open Scope list_scope.

(** ** Exceptions *)

Inductive exn : Type :=
| ValueError_float (text : string)   (* float(text): could not convert *)
| ValueError_unit (unit : string)    (* raise ValueError(f"Unknown unit: {unit}") *)
| AttributeError_strip               (* None.strip() *)
| TypeError_search.                  (* re.search(pattern, None) *)

Inductive result (A : Type) : Type :=
| Ok (a : A)
| Raise (e : exn).

Arguments Ok {A} a.
Arguments Raise {A} e.

Definition rbind {A B : Type} (r : result A) (f : A -> result B) : result B :=
  match r with
  | Ok a => f a
  | Raise e => Raise e
  end.

Notation "x <- r ;; k" := (rbind r (fun x => k))
  (at level 61, r at next level, right associativity).

(** ** Python strings *)

Module PyStr.

Definition code (c : ascii) : N := N_of_ascii c.

Definition between (lo hi : N) (c : ascii) : bool :=
  (lo <=? code c)%N && (code c <=? hi)%N.

(** [str.isspace] on one character; also the class [\s] of [re]. *)
Definition isspace (c : ascii) : bool :=
  between 9 13 c || between 28 32 c || (code c =? 133)%N || (code c =? 160)%N.

(** the class [\d] of [re] *)
Definition isdigit (c : ascii) : bool := between 48 57 c.

(** the class [[a-zA-Z]] of [re] *)
Definition isalpha_ascii (c : ascii) : bool :=
  between 65 90 c || between 97 122 c.

Definition lower_char (c : ascii) : ascii :=
  if between 65 90 c || between 192 214 c || between 216 222 c
  then ascii_of_N (code c + 32)
  else c.

(** [str.lower] *)
Fixpoint lower (s : string) : string :=
  match s with
  | EmptyString => EmptyString
  | String c s' => String (lower_char c) (lower s')
  end.

Fixpoint lstrip_by (p : ascii -> bool) (s : string) : string :=
  match s with
  | EmptyString => EmptyString
  | String c s' => if p c then lstrip_by p s' else s
  end.

Fixpoint rstrip_by (p : ascii -> bool) (s : string) : string :=
  match s with
  | EmptyString => EmptyString
  | String c s' =>
      match rstrip_by p s' with
      | EmptyString => if p c then EmptyString else String c EmptyString
      | t => String c t
      end
  end.

Definition strip_by (p : ascii -> bool) (s : string) : string :=
  rstrip_by p (lstrip_by p s).

(** [str.strip()] *)
Definition strip (s : string) : string := strip_by isspace s.

Definition flush (cur : string) (acc : list string) : list string :=
  match cur with
  | EmptyString => acc
  | _ => cur :: acc
  end.

(** [str.split()]: the maximal runs of non-space characters, in order.
    [cur] is the run being read. *)
Fixpoint split_from (cur s : string) : list string :=
  match s with
  | EmptyString => flush cur []
  | String c s' =>
      if isspace c then flush cur (split_from EmptyString s')
      else split_from (cur ++ String c EmptyString) s'
  end.

Definition split (s : string) : list string := split_from EmptyString s.

(** [str.split(sep)] for a one-character separator: every separator
    cuts, empty fields are kept, the result is never empty. *)
Fixpoint split_on_from (sep : ascii) (cur s : string) : list string :=
  match s with
  | EmptyString => [cur]
  | String c s' =>
      if Ascii.eqb c sep then cur :: split_on_from sep EmptyString s'
      else split_on_from sep (cur ++ String c EmptyString) s'
  end.

Definition split_on (sep : ascii) (s : string) : list string :=
  split_on_from sep EmptyString s.

(** the truth value of a [str] *)
Definition nonempty (s : string) : bool :=
  match s with
  | EmptyString => false
  | _ => true
  end.

(** every character of [s] is in the class [p] *)
Fixpoint all_chars (p : ascii -> bool) (s : string) : bool :=
  match s with
  | EmptyString => true
  | String c s' => p c && all_chars p s'
  end.

Definition first_char (s : string) : option ascii :=
  match s with
  | EmptyString => None
  | String c _ => Some c
  end.

Fixpoint last_char (s : string) : option ascii :=
  match s with
  | EmptyString => None
  | String c EmptyString => Some c
  | String _ s' => last_char s'
  end.

(** [c], when there is one, is outside the class [p] *)
Definition outside (p : ascii -> bool) (c : option ascii) : Prop :=
  match c with
  | Some c => p c = false
  | None => True
  end.

End PyStr.

(** ** Python floats *)

Module PyFloat.

Local Open Scope Z_scope.

(** The nearest binary64 number (ties to even) to [num / den], for
    [num >= 0] and [den > 0]. *)
Definition of_ratio (neg : bool) (num den : Z) : float :=
  if num =? 0 then (if neg then neg_zero else zero)
  else
    let '(q, e, l) := SFdiv_core_binary prec emax num 0 den 0 in
    SF2Prim (binary_round_aux prec emax neg q e l).

(** [mant * 10 ^ e10], correctly rounded *)
Definition of_decimal (neg : bool) (mant e10 : Z) : float :=
  if mant =? 0 then of_ratio neg 0 1
  else if 0 <=? e10 then of_ratio neg (mant * 10 ^ e10) 1
  else of_ratio neg mant (10 ^ (- e10)).

Definition of_Z (z : Z) : float :=
  of_ratio (z <? 0) (Z.abs z) 1.

Definition digit_val (c : ascii) : Z := Z.of_N (PyStr.code c) - 48.

Fixpoint digits_val (acc : Z) (s : string) : Z :=
  match s with
  | EmptyString => acc
  | String c s' => digits_val (10 * acc + digit_val c) s'
  end.

(** the longest prefix of decimal digits, and what follows it *)
Fixpoint span_digits (s : string) : string * string :=
  match s with
  | EmptyString => (EmptyString, EmptyString)
  | String c s' =>
      if PyStr.isdigit c then
        let '(d, r) := span_digits s' in (String c d, r)
      else (EmptyString, s)
  end.

(** Underscores of a numeric literal: each one must stand between two
    digits.  Returns the text without them. *)
Fixpoint drop_underscores (prev : option ascii) (s : string) : option string :=
  let digit_before :=
    match prev with
    | Some p => PyStr.isdigit p
    | None => false
    end in
  match s with
  | EmptyString =>
      match prev with
      | Some "_"%char => None
      | _ => Some EmptyString
      end
  | String c s' =>
      if Ascii.eqb c "_" then
        if digit_before then drop_underscores (Some c) s' else None
      else
        match prev with
        | Some "_"%char =>
            if PyStr.isdigit c then
              option_map (String c) (drop_underscores (Some c) s')
            else None
        | _ => option_map (String c) (drop_underscores (Some c) s')
        end
  end.

(** the white space [float] strips: that of [str.isspace] which the
    C-level parser also sees as space *)
Definition isspace (c : ascii) : bool :=
  PyStr.between 9 13 c || (PyStr.code c =? 32)%N
  || (PyStr.code c =? 133)%N || (PyStr.code c =? 160)%N.

Definition take_sign (s : string) : bool * string :=
  match s with
  | String "-" s' => (true, s')
  | String "+" s' => (false, s')
  | _ => (false, s)
  end.

(** optional exponent part; one without digits is not an exponent *)
Definition take_exponent (s : string) : Z * string :=
  match s with
  | String c s' =>
      if Ascii.eqb c "e" || Ascii.eqb c "E" then
        let '(neg, s2) := take_sign s' in
        match span_digits s2 with
        | (EmptyString, _) => (0, s)
        | (ds, rest) =>
            ((if neg then - digits_val 0 ds else digits_val 0 ds), rest)
        end
      else (0, s)
  | EmptyString => (0, s)
  end.

(** [[digits] . digits | digits [.]] [exponent], the whole text *)
Definition parse_decimal (neg : bool) (s : string) : option float :=
  let '(ip, r1) := span_digits s in
  let '(fp, r2) :=
    match r1 with
    | String "." r1' => span_digits r1'
    | _ => (EmptyString, r1)
    end in
  match (ip ++ fp)%string with
  | EmptyString => None
  | ds =>
      match take_exponent r2 with
      | (e, EmptyString) =>
          Some (of_decimal neg (digits_val 0 ds)
                  (e - Z.of_nat (String.length fp)))
      | _ => None
      end
  end.

Definition parse_inf_nan (neg : bool) (s : string) : option float :=
  let t := PyStr.lower s in
  if String.eqb t "inf" || String.eqb t "infinity" then
    Some (if neg then neg_infinity else infinity)
  else if String.eqb t "nan" then Some nan
  else None.

(** the builtin [float] on a [str] argument; [None] where it raises
    [ValueError] *)
Definition of_string (s : string) : option float :=
  match drop_underscores None s with
  | None => None
  | Some s1 =>
      let '(neg, s2) := take_sign (PyStr.strip_by isspace s1) in
      match parse_decimal neg s2 with
      | Some f => Some f
      | None => parse_inf_nan neg s2
      end
  end.

End PyFloat.

(** [float(text)] *)
Definition py_float (text : string) : result float :=
  match PyFloat.of_string text with
  | Some f => Ok f
  | None => Raise (ValueError_float text)
  end.

(** ** parse_coordinates *)

Definition point : Type := float * float.
Definition ring : Type := list point.

(** the body of the [for part in ...] loop: [coords] is the list built
    so far *)
Definition parse_coordinates_step (coords : ring) (part : string)
  : result ring :=
  let pieces := PyStr.split_on "," part in
  if (2 <=? List.length pieces)%nat then
    let first_two := firstn 2 pieces in
    lon <- py_float (nth 0 first_two EmptyString) ;;
    lat <- py_float (nth 1 first_two EmptyString) ;;
    Ok (coords ++ [(lon, lat)])
  else Ok coords.

Fixpoint parse_coordinates_loop (coords : ring) (parts : list string)
  : result ring :=
  match parts with
  | [] => Ok coords
  | part :: parts' =>
      coords' <- parse_coordinates_step coords part ;;
      parse_coordinates_loop coords' parts'
  end.

Definition parse_coordinates (coord_text : string) : result ring :=
  parse_coordinates_loop [] (PyStr.split (PyStr.strip coord_text)).

(** ** The area annotation of a description *)

(** A backtracking matcher for the fragment of [re] patterns the script
    uses: literal characters, greedy repetitions of a character class,
    and capturing groups around a repetition.  Under [re.IGNORECASE] a
    literal matches both cases. *)
Module Re.

Inductive item : Type :=
| Lit (c : ascii)                      (* c *)
| Star (cls : ascii -> bool)           (* [cls]* *)
| GroupPlus (cls : ascii -> bool).     (* ([cls]+) *)

Definition pattern : Type := list item.

Definition orelse {A : Type} (x y : option A) : option A :=
  match x with
  | Some _ => x
  | None => y
  end.

Section Greedy.
Context {R : Type} (cls : ascii -> bool).

(** [cls]* followed by [k]: the longest run first, then shorter ones.
    [k] receives the text consumed and the text left. *)
Fixpoint star (s : string) (k : string -> string -> option R) : option R :=
  match s with
  | String c s' =>
      if cls c then
        orelse (star s' (fun taken rest => k (String c taken) rest))
               (k EmptyString s)
      else k EmptyString s
  | EmptyString => k EmptyString s
  end.

(** [cls]+ followed by [k] *)
Definition plus (s : string) (k : string -> string -> option R) : option R :=
  match s with
  | String c s' =>
      if cls c then star s' (fun taken rest => k (String c taken) rest)
      else None
  | EmptyString => None
  end.
End Greedy.

Definition lit_matches (ignorecase : bool) (c d : ascii) : bool :=
  if ignorecase then Ascii.eqb (PyStr.lower_char c) (PyStr.lower_char d)
  else Ascii.eqb c d.

(** match [p] at the start of [s]; [groups] are the captures so far,
    the result is the list of all captures in order *)
Fixpoint match_here (ignorecase : bool) (p : pattern)
  : string -> list string -> option (list string) :=
  match p with
  | [] => fun _ groups => Some groups
  | it :: p' =>
      let k := match_here ignorecase p' in
      match it with
      | Lit c => fun s groups =>
          match s with
          | String d s' =>
              if lit_matches ignorecase c d then k s' groups else None
          | EmptyString => None
          end
      | Star cls => fun s groups =>
          star cls s (fun _ rest => k rest groups)
      | GroupPlus cls => fun s groups =>
          plus cls s (fun taken rest => k rest (groups ++ [taken]))
      end
  end.

(** [re.search]: the match at the leftmost position that has one *)
Fixpoint search (ignorecase : bool) (p : pattern) (s : string)
  : option (list string) :=
  orelse (match_here ignorecase p s [])
         (match s with
          | String _ s' => search ignorecase p s'
          | EmptyString => None
          end).

End Re.

(** [r"Area:\s*([\d\.]+)\s*([a-zA-Z\s]+)"] *)
Definition area_pattern : Re.pattern :=
  [ Re.Lit "A"; Re.Lit "r"; Re.Lit "e"; Re.Lit "a"; Re.Lit ":";
    Re.Star PyStr.isspace;
    Re.GroupPlus (fun c => PyStr.isdigit c || Ascii.eqb c ".");
    Re.Star PyStr.isspace;
    Re.GroupPlus (fun c => PyStr.isalpha_ascii c || PyStr.isspace c) ].

(** [description] is [None] where the script passes Python's [None]. *)
Definition parse_area_from_description (description : option string)
  : result (option (float * string)) :=
  match description with
  | None => Raise TypeError_search
  | Some text =>
      match Re.search true area_pattern text with
      | Some groups =>
          value <- py_float (nth 0 groups EmptyString) ;;
          let unit := PyStr.lower (nth 1 groups EmptyString) in
          Ok (Some (value, unit))
      | None => Ok None
      end
  end.

(** ** convert_to_acres *)

Definition str_in (s : string) (l : list string) : bool :=
  existsb (String.eqb s) l.

Definition convert_to_acres (value : float) (unit : string) : result float :=
  let unit := PyStr.lower unit in
  if String.eqb unit "acres" then
    Ok value
  else if str_in unit ["sq mi"; "square miles"] then
    Ok (value * PyFloat.of_Z 640)%float
  else if String.eqb unit "hectares" then
    Ok (value * 2.47105)%float
  else if str_in unit ["sq km"; "square kilometers"] then
    Ok (value * 247.105)%float
  else if str_in unit ["sq ft"; "square feet"; "sqft"] then
    Ok (value / PyFloat.of_Z 43560)%float
  else if str_in unit ["sq m"; "square meters"; "square metres";
                       "sq meter"; "sq metre"] then
    Ok (value / 4046.86)%float
  else
    Raise (ValueError_unit unit).

(** ** The document tree *)

(** An [xml.etree.ElementTree.Element]: its qualified tag, its text
    ([None] when the element has none) and its children in document
    order. *)
Inductive element : Type :=
| Element (tag : string) (text : option string) (children : list element).

Module ET.

Definition tag (e : element) : string :=
  match e with Element t _ _ => t end.

Definition text (e : element) : option string :=
  match e with Element _ x _ => x end.

Definition children (e : element) : list element :=
  match e with Element _ _ cs => cs end.

(** [KML_NS]: the tag a prefixed name [kml:local] stands for *)
Definition kml (local : string) : string :=
  "{http://www.opengis.net/kml/2.2}" ++ local.

Definition has_tag (t : string) (e : element) : bool :=
  String.eqb (tag e) t.

(** [elem.iter()]: the element and its descendants, in document order *)
Fixpoint iter (e : element) : list element :=
  match e with
  | Element _ _ cs => e :: flat_map iter cs
  end.

(** the path step [tag]: the children with that tag *)
Definition step_child (t : string) (e : element) : list element :=
  filter (has_tag t) (children e).

(** [elem.findall('a/b/c')] *)
Fixpoint findall_path (path : list string) (e : element) : list element :=
  match path with
  | [] => [e]
  | t :: path' => flat_map (findall_path path') (step_child t e)
  end.

(** [elem.find('a/b/c')] *)
Definition find_path (path : list string) (e : element) : option element :=
  hd_error (findall_path path e).

(** [elem.findall('.//tag')]: the proper descendants with that tag *)
Definition findall_descendants (t : string) (e : element) : list element :=
  filter (has_tag t) (flat_map iter (children e)).

(** [elem.find('.//tag')] *)
Definition find_descendant (t : string) (e : element) : option element :=
  hd_error (findall_descendants t e).

End ET.

(** ** extract_polygon_coords *)

(** [parse_coordinates(el.text)], where the text may be [None] *)
Definition parse_coordinates_of (text : option string) : result ring :=
  match text with
  | Some coord_text => parse_coordinates coord_text
  | None => Raise AttributeError_strip
  end.

(** [[parse_coordinates(inner.text) for inner in inner_rings if inner.text]] *)
Fixpoint parse_interiors (inner_rings : list element) : result (list ring) :=
  match inner_rings with
  | [] => Ok []
  | inner :: rest =>
      match ET.text inner with
      | Some t =>
          if PyStr.nonempty t then
            r <- parse_coordinates t ;;
            rs <- parse_interiors rest ;;
            Ok (r :: rs)
          else parse_interiors rest
      | None => parse_interiors rest
      end
  end.

Definition outer_path : list string :=
  [ET.kml "outerBoundaryIs"; ET.kml "LinearRing"; ET.kml "coordinates"].

Definition inner_path : list string :=
  [ET.kml "innerBoundaryIs"; ET.kml "LinearRing"; ET.kml "coordinates"].

(** The exterior is [None] where the script returns Python's [None]. *)
Definition extract_polygon_coords (polygon_el : element)
  : result (option ring * list ring) :=
  match ET.find_path outer_path polygon_el with
  | None => Ok (None, [])
  | Some outer_ring =>
      exterior <- parse_coordinates_of (ET.text outer_ring) ;;
      let inner_rings := ET.findall_path inner_path polygon_el in
      interiors <- parse_interiors inner_rings ;;
      Ok (Some exterior, interiors)
  end.

(** ** Formatting *)

Module Fmt.

Local Open Scope Z_scope.

Definition decimal (n : Z) : string :=
  DecimalString.NilZero.string_of_uint (N.to_uint (Z.to_N n)).

(** [num / den] rounded to the nearest integer, ties to even *)
Definition round_half_even (num den : Z) : Z :=
  let q := num / den in
  let r := num mod den in
  match 2 * r ?= den with
  | Lt => q
  | Gt => q + 1
  | Eq => if Z.even q then q else q + 1
  end.

Definition hundredths (n : Z) : string :=
  let whole := decimal (n / 100) in
  let cents := decimal (n mod 100) in
  let pad := if n mod 100 <? 10 then "0"%string else EmptyString in
  (whole ++ "." ++ pad ++ cents)%string.

Definition signed (neg : bool) (s : string) : string :=
  if neg then ("-" ++ s)%string else s.

(** [f"{x:.2f}"] *)
Definition format_2f (x : float) : string :=
  match Prim2SF x with
  | S754_nan => "nan"
  | S754_infinity neg => signed neg "inf"
  | S754_zero neg => signed neg "0.00"
  | S754_finite neg m e =>
      signed neg
        (hundredths
           (if 0 <=? e then Z.pos m * 2 ^ e * 100
            else round_half_even (Z.pos m * 100) (2 ^ (- e))))
  end.

End Fmt.

(** ** main *)

(** What a run leaves behind besides its result: the warnings written to
    the log, and the polygons handed to the geometry libraries. *)
Inductive event : Type :=
| LogWarning (message : string)
| GeometricArea (exterior : ring) (interiors : list ring).

(** A computation of [main]: its trace, and its value or the exception
    that ended it. *)
Definition traced (A : Type) : Type := list event * result A.

Definition tret {A : Type} (a : A) : traced A := ([], Ok a).

Definition tbind {A B : Type} (m : traced A) (f : A -> traced B) : traced B :=
  match m with
  | (tr, Ok a) => let '(tr', r) := f a in (tr ++ tr', r)
  | (tr, Raise e) => (tr, Raise e)
  end.

Definition lift {A : Type} (r : result A) : traced A := ([], r).

Definition emit (ev : event) : traced unit := ([ev], Ok tt).

Notation "x <~ m ;; k" := (tbind m (fun x => k))
  (at level 61, m at next level, right associativity).
Notation "m ;;; k" := (tbind m (fun _ => k))
  (at level 61, right associativity).

(** the polygons a trace shows handed to the geometry libraries *)
Fixpoint geometry_calls (tr : list event) : list (ring * list ring) :=
  match tr with
  | [] => []
  | GeometricArea exterior interiors :: tr' =>
      (exterior, interiors) :: geometry_calls tr'
  | LogWarning _ :: tr' => geometry_calls tr'
  end.

(** [except ValueError] *)
Definition is_ValueError (e : exn) : bool :=
  match e with
  | ValueError_float _ | ValueError_unit _ => true
  | AttributeError_strip | TypeError_search => false
  end.

Inductive exit_status : Type :=
| Returned                 (* main ran to its end *)
| Exited (code : Z)        (* sys.exit(code) *)
| Uncaught (e : exn).      (* an exception left main *)

(** A run of [main]: [csv] is the rows written to the report, [None]
    when the file was not opened. *)
Record run : Type := Run {
  log : list event;
  stdout : list string;
  csv : option (list (list string));
  status : exit_status
}.

(** [l[i] = v] for an index within the list *)
Fixpoint set_item {A : Type} (l : list A) (i : nat) (v : A) : list A :=
  match l, i with
  | [], _ => []
  | _ :: l', O => v :: l'
  | x :: l', S i' => x :: set_item l' i' v
  end.

Section Pipeline.

(** [transform(_transformer.transform, Polygon(exterior, interiors)).area]:
    shapely builds the polygon, pyproj projects it to EPSG:3857; either
    may raise. *)
Variable projected_area : ring -> list ring -> result float.

(** the builtin [sum] over floats *)
Variable py_sum : list float -> float.

(** the path of [polygon_areas.csv] next to the script *)
Variable csv_path : string.

(** lines 158-161 and 164-167 *)
Definition calculated_acres (exterior : ring) (interiors : list ring)
  : traced float :=
  emit (GeometricArea exterior interiors) ;;;
  area_m2 <~ lift (projected_area exterior interiors) ;;
  tret (area_m2 / 4046.86)%float.

Definition unknown_unit_warning (unit name : string) : string :=
  "Unknown unit '" ++ unit ++ "' for polygon '" ++ name
    ++ "', calculating area instead.".

Definition no_coordinates_warning (name : string) : string :=
  "Polygon '" ++ name ++ "' has no coordinates.".

(** lines 152-167: the area of one polygon in acres *)
Definition determine_area (name : string)
    (area_info : option (float * string))
    (exterior : ring) (interiors : list ring) : traced float :=
  match area_info with
  | Some (value, unit) =>
      match convert_to_acres value unit with
      | Ok area_acres => tret area_acres
      | Raise e =>
          if is_ValueError e then
            emit (LogWarning (unknown_unit_warning unit name)) ;;;
            calculated_acres exterior interiors
          else lift (Raise e)
      end
  | None => calculated_acres exterior interiors
  end.

(** lines 135-136 *)
Definition placemark_name (pm : element) : result string :=
  match ET.find_path [ET.kml "name"] pm with
  | Some name_el =>
      match ET.text name_el with
      | Some t => Ok (PyStr.strip t)
      | None => Raise AttributeError_strip
      end
  | None => Ok "Unnamed"
  end.

(** lines 139-140 *)
Definition placemark_description (pm : element) : option string :=
  match ET.find_path [ET.kml "description"] pm with
  | Some desc_el => ET.text desc_el
  | None => Some EmptyString
  end.

(** the truth value of [exterior] at line 147 *)
Definition usable (exterior : option ring) : option ring :=
  match exterior with
  | Some (p :: ps) => Some (p :: ps)
  | Some [] | None => None
  end.

(** lines 130-169, the body of the loop over placemarks: the row the
    placemark adds to [results], or [None] where the loop continues
    without one *)
Definition main_placemark (pm : element) : traced (option (string * float)) :=
  match ET.find_descendant (ET.kml "Polygon") pm with
  | None => tret None
  | Some polygon =>
      name <~ lift (placemark_name pm) ;;
      let description := placemark_description pm in
      area_info <~ lift (parse_area_from_description description) ;;
      coords <~ lift (extract_polygon_coords polygon) ;;
      let '(exterior, interiors) := coords in
      match usable exterior with
      | None =>
          emit (LogWarning (no_coordinates_warning name)) ;;;
          tret None
      | Some exterior =>
          area_acres <~ determine_area name area_info exterior interiors ;;
          tret (Some (name, area_acres))
      end
  end.

(** lines 128-169 *)
Fixpoint main_loop (results : list (string * float)) (pms : list element)
  : traced (list (string * float)) :=
  match pms with
  | [] => tret results
  | pm :: pms' =>
      row <~ main_placemark pm ;;
      main_loop (match row with
                 | Some r => results ++ [r]
                 | None => results
                 end) pms'
  end.

(** lines 184-190: the rows after the header *)
Fixpoint write_rows (total_acres : float) (first : bool)
    (results : list (string * float)) : list (list string) :=
  match results with
  | [] => []
  | (name, area) :: results' =>
      let row := [name; Fmt.format_2f area; EmptyString] in
      let row :=
        if first then set_item row 2 (Fmt.format_2f total_acres) else row in
      row :: write_rows total_acres false results'
  end.

Definition header : list string :=
  ["Polygon Name"; "Total Acreage"; "Total"].

(** lines 179-190 *)
Definition write_report (results : list (string * float))
  : list (list string) :=
  let total_acres := py_sum (map snd results) in
  header :: write_rows total_acres true results.

(** [main] from line 128 on, on the root of the parsed document *)
Definition main (root : element) : run :=
  match main_loop [] (ET.findall_descendants (ET.kml "Placemark") root) with
  | (tr, Raise e) =>
      {| log := tr; stdout := []; csv := None; status := Uncaught e |}
  | (tr, Ok []) =>
      {| log := tr;
         stdout := ["No polygons found in the KML file."];
         csv := None;
         status := Exited 0 |}
  | (tr, Ok results) =>
      {| log := tr;
         stdout := [("CSV report generated: " ++ csv_path)%string];
         csv := Some (write_report results);
         status := Returned |}
  end.

End Pipeline.

(** ** Sample documents *)

Module Sample.

Definition leaf (local text : string) : element :=
  Element (ET.kml local) (Some text) [].

Definition boundary (kind coords : string) : element :=
  Element (ET.kml kind) None
    [Element (ET.kml "LinearRing") None [leaf "coordinates" coords]].

Definition polygon (rings : list element) : element :=
  Element (ET.kml "Polygon") None rings.

Definition placemark (fields : list element) : element :=
  Element (ET.kml "Placemark") None fields.

Definition document (pms : list element) : element :=
  Element (ET.kml "kml") None [Element (ET.kml "Document") None pms].

Definition square : string :=
  "0,0,0 0,0.001,0 0.001,0.001,0 0.001,0,0 0,0,0".

(** A planar stand-in for the geometry libraries: the shoelace area of
    the exterior in the input coordinates, holes ignored.  It only
    serves to run the pipeline on the samples. *)
Fixpoint shoelace (first prev : point) (ps : ring) : float :=
  match ps with
  | [] => (fst prev * snd first - fst first * snd prev)%float
  | p :: ps' =>
      (fst prev * snd p - fst p * snd prev + shoelace first p ps')%float
  end.

Definition planar_area (exterior : ring) (interiors : list ring)
  : result float :=
  match exterior with
  | p :: ps => Ok (abs (shoelace p p ps) / 2)%float
  | [] => Ok 0%float
  end.

Definition add_all (xs : list float) : float :=
  fold_left PrimFloat.add xs 0%float.

Definition run_main (root : element) : run :=
  main planar_area add_all "polygon_areas.csv" root.

Definition square_ring : ring :=
  [(0, 0); (0, 0.001); (0.001, 0.001); (0.001, 0); (0, 0)]%float.

Definition square_polygon : element :=
  polygon [boundary "outerBoundaryIs" square].

(** a polygon whose description gives its area in a known unit *)
Definition pm_acres : element :=
  placemark [leaf "name" " North field ";
             leaf "description" "Area: 10 acres";
             square_polygon].

(** the same record over another ring *)
Definition moved_polygon : element :=
  polygon [boundary "outerBoundaryIs" "5,5 6,5 6,6 5,6"].

Definition pm_acres_moved : element :=
  placemark [leaf "name" " North field ";
             leaf "description" "Area: 10 acres";
             moved_polygon].

(** an annotation in a unit the table does not have, and no name *)
Definition pm_furlongs : element :=
  placemark [leaf "description" "Area: 3 furlongs"; square_polygon].

(** a name of white space only *)
Definition pm_blank_name : element :=
  placemark [leaf "name" "   ";
             leaf "description" "Area: 5.2 acres";
             square_polygon].

(** an exterior ring of two points, no annotation *)
Definition two_point_polygon : element :=
  polygon [boundary "outerBoundaryIs" "0,0 1,1"].

Definition pm_two_points : element :=
  placemark [leaf "name" "B"; two_point_polygon].

(** an exterior whose only token has one component *)
Definition no_point_polygon : element :=
  polygon [boundary "outerBoundaryIs" "7"].

Definition pm_no_points : element :=
  placemark [leaf "name" "P"; no_point_polygon].

(** no outer boundary at all *)
Definition no_outer_polygon : element := polygon [].

Definition pm_no_outer : element :=
  placemark [leaf "name" "P"; no_outer_polygon].

(** the two records above, each with an interior ring that does not
    parse *)
Definition no_point_bad_hole_polygon : element :=
  polygon [boundary "outerBoundaryIs" "7";
           boundary "innerBoundaryIs" "a,b"].

Definition pm_no_points_bad_hole : element :=
  placemark [leaf "name" "P"; no_point_bad_hole_polygon].

Definition no_outer_bad_hole_polygon : element :=
  polygon [boundary "innerBoundaryIs" "a,b"].

Definition pm_no_outer_bad_hole : element :=
  placemark [leaf "name" "P"; no_outer_bad_hole_polygon].

(** a placemark without polygon *)
Definition pm_point : element :=
  placemark [leaf "name" "Well";
             Element (ET.kml "Point") None [leaf "coordinates" "1,2,0"]].

(** an annotation whose number has two points *)
Definition pm_dotted : element :=
  placemark [leaf "name" "D";
             leaf "description" "Area: 1.2.3 acres";
             square_polygon].

(** a coordinate text with a malformed token *)
Definition malformed_polygon : element :=
  polygon [boundary "outerBoundaryIs" "1,2 3,x 4,5"].

Definition pm_malformed : element :=
  placemark [leaf "name" "M"; malformed_polygon].

(** three polygon records and a point *)
Definition fields : element :=
  document [pm_acres; pm_point; pm_blank_name; pm_furlongs].

Definition fields_results : list (string * float) :=
  [("North field", 10); (EmptyString, 5.2);
   ("Unnamed", 2.4710516301527603e-10)]%float.

End Sample.

(** ** The unit table of the specification *)

(** The conversion table as the specification lists it: each alias with
    its formula to acres. *)
Definition unit_table : list (string * (float -> float)) :=
  [ ("acres", fun value => value);
    ("sq mi", fun value => value * 640);
    ("square miles", fun value => value * 640);
    ("hectares", fun value => value * 2.47105);
    ("sq km", fun value => value * 247.105);
    ("square kilometers", fun value => value * 247.105);
    ("sq ft", fun value => value / 43560);
    ("square feet", fun value => value / 43560);
    ("sqft", fun value => value / 43560);
    ("sq m", fun value => value / 4046.86);
    ("square meters", fun value => value / 4046.86);
    ("square metres", fun value => value / 4046.86);
    ("sq meter", fun value => value / 4046.86);
    ("sq metre", fun value => value / 4046.86) ]%float.

Fixpoint table_lookup {A : Type} (key : string) (table : list (string * A))
  : option A :=
  match table with
  | [] => None
  | (k, a) :: table' =>
      if String.eqb key k then Some a else table_lookup key table'
  end.

(** the normalizer as the specification states it *)
Definition normalize_spec (value : float) (unit : string) : result float :=
  match table_lookup (PyStr.lower unit) unit_table with
  | Some formula => Ok (formula value)
  | None => Raise (ValueError_unit (PyStr.lower unit))
  end.

(** ** Malformed coordinate tokens *)

(** A token of coordinate text with at least two comma-separated
    components of which one of the first two is not numeric text. *)
Definition malformed_token (part : string) : Prop :=
  let pieces := PyStr.split_on "," part in
  (2 <= List.length pieces)%nat
  /\ (PyFloat.of_string (nth 0 pieces EmptyString) = None
      \/ PyFloat.of_string (nth 1 pieces EmptyString) = None).

(** ** The archive and the command line *)

(** What a call into the operating system or a library gives: its value,
    or [Failed message] where it raises an exception [e] with
    [str(e) = message]. *)
Inductive io (A : Type) : Type :=
| Done (a : A)
| Failed (message : string).

Arguments Done {A} a.
Arguments Failed {A} message.

(** A [zipfile.ZipFile] opened for reading: the entries of its directory
    in order, each with its name and with what reading it gives. *)
Definition archive : Type := list (string * io string).

(** [s.endswith(suffix)] *)
Fixpoint drop_chars (n : nat) (s : string) : string :=
  match n, s with
  | S n', String _ s' => drop_chars n' s'
  | _, _ => s
  end.

Definition endswith (s suffix : string) : bool :=
  String.eqb (drop_chars (String.length s - String.length suffix) s) suffix.

Module Zip.

(** [z.namelist()] *)
Definition namelist (z : archive) : list string := map fst z.

Definition named (name : string) (entry : string * io string) : bool :=
  String.eqb (fst entry) name.

(** [z.open(name).read()]: the directory is looked up by name, and of
    several entries with one name the last is kept; a name that is not
    in the directory raises [KeyError]. *)
Definition read (z : archive) (name : string) : io string :=
  last (map snd (filter (named name) z)) (Failed "KeyError").

End Zip.

(** [name.lower().endswith(".kml")] *)
Definition is_kml_name (name : string) : bool :=
  endswith (PyStr.lower name) ".kml".

(** the loop of lines 39-42: the first name it returns on *)
Fixpoint first_kml (names : list string) : option string :=
  match names with
  | [] => None
  | name :: names' =>
      if is_kml_name name then Some name else first_kml names'
  end.

(** What [ET.fromstring] gives: the root, or [ParseError] with its
    message, or another exception. *)
Inductive parsed : Type :=
| Parsed (root : element)
| ParseError (message : string)
| ParserRaised (message : string).

(** How a call of [main] ends: it stopped before the loop with a line
    printed, perhaps an error logged, and [sys.exit(code)]; or an
    exception left it before the loop; or it went on with the parsed
    document. *)
Inductive outcome : Type :=
| Stopped (printed : string) (logged : option string) (code : Z)
| Crashed (message : string)
| Ran (r : run).

Section Script.

(** [zipfile.ZipFile(path)] *)
Variable open_zip : string -> io archive.

(** [os.path.isfile(path)] *)
Variable is_file : string -> bool.

(** [open(path, 'rb').read()] *)
Variable read_file : string -> io string.

(** [ET.fromstring(data)] *)
Variable fromstring : string -> parsed.

Variable projected_area : ring -> list ring -> result float.
Variable py_sum : list float -> float.
Variable csv_path : string.

(** lines 36-43 *)
Definition _extract_kml_from_kmz (kmz_path : string) : io string :=
  match open_zip kmz_path with
  | Failed message => Failed message
  | Done z =>
      match first_kml (Zip.namelist z) with
      | Some name => Zip.read z name
      | None => Failed "No KML file found inside KMZ"
      end
  end.

(** lines 120-126, then the rest of [main] *)
Definition main_parse (kml_data : string) : outcome :=
  match fromstring kml_data with
  | Parsed root => Ran (main projected_area py_sum csv_path root)
  | ParseError message =>
      Stopped "Error parsing KML. See log for details."
              (Some ("Failed to parse KML: " ++ message)%string) 1
  | ParserRaised message => Crashed message
  end.

(** [main] from its first line, on [sys.argv] *)
Definition main_script (argv : list string) : outcome :=
  if negb (List.length argv =? 2)%nat then
    Stopped "Usage: drag and drop a KMZ or KML file onto this script" None 1
  else
    let input_path := nth 1 argv EmptyString in
    if negb (is_file input_path) then
      Stopped ("Provided path is not a file: " ++ input_path)%string None 1
    else if endswith (PyStr.lower input_path) ".kmz" then
      match _extract_kml_from_kmz input_path with
      | Done kml_data => main_parse kml_data
      | Failed message =>
          Stopped "Error extracting KML from KMZ. See log for details."
                  (Some ("Failed to extract KML from KMZ: " ++ message)%string)
                  1
      end
    else if endswith (PyStr.lower input_path) ".kml" then
      match read_file input_path with
      | Done kml_data => main_parse kml_data
      | Failed message => Crashed message
      end
    else Stopped "Please provide a KMZ or KML file." None 1.

End Script.

(** ** Notions the properties use *)

(** a token that [parse_coordinates] turns into a point *)
Definition has_two_components (part : string) : bool :=
  (2 <=? List.length (PyStr.split_on "," part))%nat.

(** [pt] is what the first two components of [part] read as *)
Definition token_point (part : string) (pt : point) : Prop :=
  exists lon lat rest,
    PyStr.split_on "," part = lon :: lat :: rest
    /\ PyFloat.of_string lon = Some (fst pt)
    /\ PyFloat.of_string lat = Some (snd pt).

(** the truth value of [inner.text] *)
Definition has_text (el : element) : bool :=
  match ET.text el with
  | Some t => PyStr.nonempty t
  | None => false
  end.

(** [ring] is what the text of [el] parses to *)
Definition ring_of (el : element) (r : ring) : Prop :=
  exists t, ET.text el = Some t /\ parse_coordinates t = Ok r.

Definition digit_or_point (c : ascii) : bool :=
  PyStr.isdigit c || Ascii.eqb c ".".

Definition letter_or_space (c : ascii) : bool :=
  PyStr.isalpha_ascii c || PyStr.isspace c.

Definition lower_letter_or_space (c : ascii) : bool :=
  PyStr.between 97 122 c || PyStr.isspace c.

(** neither a digit, nor a point, nor a capital letter of A to Z *)
Definition plain_unit_char (c : ascii) : bool :=
  negb (digit_or_point c) && negb (PyStr.between 65 90 c).

Fixpoint count_points (s : string) : nat :=
  match s with
  | EmptyString => O
  | String c s' =>
      if Ascii.eqb c "." then S (count_points s') else count_points s'
  end.

Fixpoint has_digit (s : string) : bool :=
  match s with
  | EmptyString => false
  | String c s' => PyStr.isdigit c || has_digit s'
  end.

(** a number text [float] can read: a digit, and at most one point *)
Definition readable_number (s : string) : bool :=
  has_digit s && (count_points s <=? 1)%nat.

(** the rows a list of loop outcomes adds *)
Definition rows_of (outcomes : list (list event * option (string * float)))
  : list (string * float) :=
  flat_map (fun o => match snd o with
                     | Some row => [row]
                     | None => []
                     end) outcomes.

(** ** Sample archives and files *)

Module Demo.

(** the bytes of a document, and a parser that knows them *)
Definition kml_bytes : string := "<kml>three fields and a well</kml>".

Definition fromstring (data : string) : parsed :=
  if String.eqb data kml_bytes then Parsed Sample.fields
  else ParseError "syntax error: line 1, column 0".

(** an archive with a document among other entries *)
Definition bundle : archive :=
  [("readme.txt", Done "notes");
   ("Doc.KML", Done kml_bytes);
   ("icons/pin.png", Failed "Bad CRC-32 for file 'icons/pin.png'");
   ("extra.kml", Done "<kml/>")].

(** an archive without document *)
Definition notes_only : archive := [("readme.txt", Done "notes")].

Definition open_zip (path : string) : io archive :=
  if String.eqb path "fields.kmz" then Done bundle
  else if String.eqb path "Notes.KMZ" then Done notes_only
  else Failed "File is not a zip file".

(** the same archive without the entries that are not documents *)
Definition open_zip_kml_only (path : string) : io archive :=
  match open_zip path with
  | Done z => Done (filter (fun entry => is_kml_name (fst entry)) z)
  | Failed message => Failed message
  end.

Definition is_file (path : string) : bool :=
  str_in path ["fields.kmz"; "Notes.KMZ"; "fields.kml"].

Definition read_file (path : string) : io string :=
  if String.eqb path "fields.kml" then Done kml_bytes
  else Failed "[Errno 2] No such file or directory".

Definition run_script (argv : list string) : outcome :=
  main_script open_zip is_file read_file fromstring
    Sample.planar_area Sample.add_all "polygon_areas.csv" argv.

(** a polygon with a hole, and an inner boundary without coordinates *)
Definition holed_polygon : element :=
  Sample.polygon
    [Sample.boundary "outerBoundaryIs" Sample.square;
     Sample.boundary "innerBoundaryIs" "";
     Sample.boundary "innerBoundaryIs"
       "0.0002,0.0002 0.0004,0.0002 0.0004,0.0004"].

Definition hole : ring :=
  [(0.0002, 0.0002); (0.0004, 0.0002); (0.0004, 0.0004)]%float.

(** a name element without text *)
Definition nameless : element := Element (ET.kml "name") None [].

Definition pm_nameless : element :=
  Sample.placemark [nameless; Sample.square_polygon].

(** the children of [Sample.pm_acres] *)
Definition acres_children : list element :=
  [Sample.leaf "name" " North field ";
   Sample.leaf "description" "Area: 10 acres";
   Sample.square_polygon].

(** the outcomes of the placemarks of [Sample.fields] *)
Definition fields_outcomes : list (list event * option (string * float)) :=
  [([], Some ("North field", 10%float));
   ([], None);
   ([], Some (EmptyString, 5.2%float));
   ([LogWarning
       "Unknown unit 'furlongs' for polygon 'Unnamed', calculating area instead.";
     GeometricArea Sample.square_ring []],
    Some ("Unnamed", 2.4710516301527603e-10%float))].

End Demo.

(** ** The numbers of the report *)










(** ** Further sample records *)

Module Edge.


(** the record [Sample.pm_acres] over a coordinate text without a point *)
Definition pm_acres_no_points : element :=
  Sample.placemark [Sample.leaf "name" " North field ";
                    Sample.leaf "description" "Area: 10 acres";
                    Sample.no_point_polygon].

(** and over a coordinate text with a malformed token *)
Definition pm_acres_malformed : element :=
  Sample.placemark [Sample.leaf "name" " North field ";
                    Sample.leaf "description" "Area: 10 acres";
                    Sample.malformed_polygon].




End Edge.

(** * Properties *)

(** ** The unit normalizer *)

Lemma of_Z_640 : PyFloat.of_Z 640 = 640%float.
Proof. vm_compute. reflexivity. Qed.

Lemma of_Z_43560 : PyFloat.of_Z 43560 = 43560%float.
Proof. vm_compute. reflexivity. Qed.

(** The constants of the script are the numbers [float] reads from
    their decimal text. *)
Lemma unit_constants :
  map PyFloat.of_string ["640"; "2.47105"; "247.105"; "43560"; "4046.86"]
  = map Some [640; 2.47105; 247.105; 43560; 4046.86]%float.
Proof. vm_compute. reflexivity. Qed.

Ltac case_eqb :=
  match goal with
  | |- context [String.eqb ?a ?b] =>
      let E := fresh "E" in
      destruct (String.eqb a b) eqn:E; cbn [orb negb andb]
  end.

(** C2. For every value and unit string, [convert_to_acres] returns the
    conversion the table of the specification gives for the lowercased
    unit, and fails with the unrecognized-unit error for every unit
    string that is not one of the fourteen aliases. *)
Theorem convert_to_acres_table :
  forall (value : float) (unit : string),
    convert_to_acres value unit = normalize_spec value unit.
Proof.
  intros value unit.
  unfold convert_to_acres, normalize_spec, unit_table, str_in.
  rewrite of_Z_640, of_Z_43560.
  cbn [existsb table_lookup].
  generalize (PyStr.lower unit); intros u.
  repeat (case_eqb; [reflexivity|]).
  reflexivity.
Qed.

Lemma table_lookup_none {A : Type} (key : string) (table : list (string * A)) :
  table_lookup key table = None <-> ~ In key (map fst table).
Proof.
  induction table as [|[k a] table IH]; cbn.
  - tauto.
  - destruct (String.eqb key k) eqn:E.
    + apply String.eqb_eq in E. split; [discriminate | intros H; exfalso; auto].
    + apply String.eqb_neq in E. rewrite IH. split.
      * intros H [H1|H1]; [congruence | auto].
      * intros H H1. apply H. right. exact H1.
Qed.

(** The table is closed: exactly the listed aliases convert. *)
Lemma normalize_spec_closed (value : float) (unit : string) :
  (exists acres, normalize_spec value unit = Ok acres)
  <-> In (PyStr.lower unit) (map fst unit_table).
Proof.
  unfold normalize_spec.
  destruct (table_lookup (PyStr.lower unit) unit_table) as [f|] eqn:E.
  - split; [intros _ | intros _; eexists; reflexivity].
    destruct (in_dec string_dec (PyStr.lower unit) (map fst unit_table))
      as [H|H]; [exact H|].
    apply table_lookup_none in H. congruence.
  - apply table_lookup_none in E.
    split; [intros [a H]; discriminate | intros H; contradiction].
Qed.

(** [convert_to_acres] raises nothing but the unrecognized-unit error. *)
Lemma convert_to_acres_raises (value : float) (unit : string) (e : exn) :
  convert_to_acres value unit = Raise e -> e = ValueError_unit (PyStr.lower unit).
Proof.
  unfold convert_to_acres, str_in. cbn [existsb].
  generalize (PyStr.lower unit); intros u.
  repeat (case_eqb; [discriminate|]).
  intros H. injection H as <-. reflexivity.
Qed.

(** the examples of the specification *)
Lemma convert_to_acres_examples :
  convert_to_acres 5.2 "acres" = Ok 5.2%float
  /\ convert_to_acres 1 "sq mi" = Ok 640%float
  /\ convert_to_acres 2 "Square Kilometers" = Ok 494.21%float
  /\ convert_to_acres 3 "furlongs" = Raise (ValueError_unit "furlongs")
  /\ convert_to_acres 1 "hectare" = Raise (ValueError_unit "hectare")
  /\ convert_to_acres 1 "acres " = Raise (ValueError_unit "acres ").
Proof. repeat split; vm_compute; reflexivity. Qed.

(** ** The area annotation parser *)

(** C5. On the description [Area: 1.2.3 acres] the pattern matches with
    the number text [1.2.3], and the parser raises the conversion error
    of [float] instead of returning a pair or the no-annotation result. *)
Theorem parse_area_dotted_number_raises :
  parse_area_from_description (Some "Area: 1.2.3 acres")
  = Raise (ValueError_float "1.2.3").
Proof. vm_compute. reflexivity. Qed.

(** ** Trimming *)

Lemma lstrip_by_spec (p : ascii -> bool) (s : string) :
  exists l,
    s = (l ++ PyStr.lstrip_by p s)%string
    /\ PyStr.all_chars p l = true
    /\ PyStr.outside p (PyStr.first_char (PyStr.lstrip_by p s)).
Proof.
  induction s as [|c s (l & Hs & Hl & Hf)].
  - exists EmptyString. repeat split.
  - cbn [PyStr.lstrip_by]. destruct (p c) eqn:Ec.
    + exists (String c l). cbn. rewrite Ec, Hl, <- Hs. auto.
    + exists EmptyString. cbn. auto.
Qed.

Lemma rstrip_by_first (p : ascii -> bool) (s : string) :
  PyStr.outside p (PyStr.first_char s) ->
  PyStr.first_char (PyStr.rstrip_by p s) = PyStr.first_char s.
Proof.
  destruct s as [|c s]; [reflexivity|]. cbn. intros Hc.
  destruct (PyStr.rstrip_by p s); [rewrite Hc|]; reflexivity.
Qed.

Lemma rstrip_by_spec (p : ascii -> bool) (s : string) :
  exists r,
    s = (PyStr.rstrip_by p s ++ r)%string
    /\ PyStr.all_chars p r = true
    /\ PyStr.outside p (PyStr.last_char (PyStr.rstrip_by p s)).
Proof.
  induction s as [|c s (r & Hs & Hr & Hl)].
  - exists EmptyString. repeat split.
  - cbn [PyStr.rstrip_by].
    destruct (PyStr.rstrip_by p s) as [|c' t] eqn:E.
    + destruct (p c) eqn:Ec.
      * exists (String c r). cbn in *. rewrite Ec, Hr, <- Hs. auto.
      * exists r. cbn in *. subst r. auto.
    + exists r. split; [|split; [exact Hr|exact Hl]].
      cbn in *. rewrite <- Hs. reflexivity.
Qed.

(** [str.strip()] removes a run of white space at each end, and what is
    left neither starts nor ends with white space. *)
Lemma strip_spec (s : string) :
  exists l r,
    s = (l ++ PyStr.strip s ++ r)%string
    /\ PyStr.all_chars PyStr.isspace l = true
    /\ PyStr.all_chars PyStr.isspace r = true
    /\ PyStr.outside PyStr.isspace (PyStr.first_char (PyStr.strip s))
    /\ PyStr.outside PyStr.isspace (PyStr.last_char (PyStr.strip s)).
Proof.
  unfold PyStr.strip, PyStr.strip_by.
  destruct (lstrip_by_spec PyStr.isspace s) as (l & Hs & Hl & Hf).
  destruct (rstrip_by_spec PyStr.isspace (PyStr.lstrip_by PyStr.isspace s))
    as (r & Hm & Hr & Hlast).
  exists l, r. repeat split; auto.
  - rewrite <- Hm. exact Hs.
  - rewrite (rstrip_by_first _ _ Hf). exact Hf.
Qed.

(** ** The annotation pattern *)

Section Matcher.

Context {R : Type} (cls : ascii -> bool).

(** a successful [cls]* hands its continuation a run of the class *)
Lemma star_some (s : string) :
  forall (k : string -> string -> option R) (r : R),
    Re.star cls s k = Some r ->
    exists taken rest,
      s = (taken ++ rest)%string
      /\ PyStr.all_chars cls taken = true
      /\ k taken rest = Some r.
Proof.
  induction s as [|c s IH]; intros k r H; cbn [Re.star] in H.
  - exists EmptyString, EmptyString. auto.
  - destruct (cls c) eqn:Ec.
    + unfold Re.orelse in H.
      destruct (Re.star cls s (fun taken rest => k (String c taken) rest))
        as [r'|] eqn:E.
      * injection H as <-.
        destruct (IH _ _ E) as (taken & rest & Hs & Ht & Hk).
        exists (String c taken), rest. cbn. rewrite Ec, Ht, Hs. auto.
      * exists EmptyString, (String c s). auto.
    + exists EmptyString, (String c s). auto.
Qed.

Lemma plus_some (s : string) (k : string -> string -> option R) (r : R) :
  Re.plus cls s k = Some r ->
  exists taken rest,
    s = (taken ++ rest)%string
    /\ PyStr.nonempty taken = true
    /\ PyStr.all_chars cls taken = true
    /\ k taken rest = Some r.
Proof.
  destruct s as [|c s]; cbn [Re.plus]; [discriminate|].
  destruct (cls c) eqn:Ec; [|discriminate].
  intros H. destruct (star_some _ _ _ H) as (taken & rest & Hs & Ht & Hk).
  exists (String c taken), rest. cbn. rewrite Ec, Ht, Hs. auto.
Qed.

End Matcher.

Lemma search_some (ignorecase : bool) (p : Re.pattern) (s : string) :
  forall groups,
    Re.search ignorecase p s = Some groups ->
    exists before from,
      s = (before ++ from)%string
      /\ Re.match_here ignorecase p from [] = Some groups.
Proof.
  induction s as [|c s IH]; intros groups H; cbn [Re.search] in H;
    unfold Re.orelse in H.
  - destruct (Re.match_here ignorecase p EmptyString []) eqn:E;
      [|discriminate].
    exists EmptyString, EmptyString. split; [reflexivity | congruence].
  - destruct (Re.match_here ignorecase p (String c s) []) eqn:E.
    + exists EmptyString, (String c s). split; [reflexivity | congruence].
    + destruct (IH _ H) as (before & from & Hs & Hm).
      exists (String c before), from. cbn. rewrite Hs. auto.
Qed.

(** What a match of the annotation pattern captures: a non-empty run of
    digits and points, and a non-empty run of letters and white space. *)
Lemma area_pattern_groups (text : string) (groups : list string) :
  Re.search true area_pattern text = Some groups ->
  exists number unit,
    groups = [number; unit]
    /\ PyStr.nonempty number = true
    /\ PyStr.all_chars (fun c => PyStr.isdigit c || Ascii.eqb c ".") number = true
    /\ PyStr.nonempty unit = true
    /\ PyStr.all_chars (fun c => PyStr.isalpha_ascii c || PyStr.isspace c) unit
       = true.
Proof.
  intros H. apply search_some in H. destruct H as (before & from & _ & H).
  unfold area_pattern in H. cbn [Re.match_here] in H.
  repeat match type of H with
         | match ?x with String _ _ => _ | EmptyString => _ end = Some _ =>
             destruct x; [discriminate|]
         | (if ?b then _ else _) = Some _ => destruct b; [|discriminate]
         end.
  apply star_some in H. destruct H as (w1 & r1 & _ & _ & H).
  apply plus_some in H. destruct H as (number & r2 & _ & Hn1 & Hn2 & H).
  apply star_some in H. destruct H as (w2 & r3 & _ & _ & H).
  apply plus_some in H. destruct H as (unit & r4 & _ & Hu1 & Hu2 & H).
  injection H as <-. exists number, unit. auto.
Qed.

(** the docstring's example *)
Lemma parse_area_docstring_example :
  parse_area_from_description (Some "Area: 5.2 sq mi")
  = Ok (Some (5.2%float, "sq mi")).
Proof. vm_compute. reflexivity. Qed.

(** no [Area:] label, no annotation *)
Lemma parse_area_no_label :
  parse_area_from_description (Some "A field by the river, 5.2 acres")
  = Ok None.
Proof. vm_compute. reflexivity. Qed.

(** ** The coordinate parser *)

Lemma split_from_cons (cur : string) (c : ascii) (s : string) :
  PyStr.split_from cur (String c s)
  = if PyStr.isspace c then PyStr.flush cur (PyStr.split_from EmptyString s)
    else PyStr.split_from (cur ++ String c EmptyString) s.
Proof. reflexivity. Qed.

Lemma split_from_lstrip (s : string) :
  PyStr.split_from EmptyString (PyStr.lstrip_by PyStr.isspace s)
  = PyStr.split_from EmptyString s.
Proof.
  induction s as [|c s IH]; [reflexivity|].
  cbn [PyStr.lstrip_by]. destruct (PyStr.isspace c) eqn:Ec.
  - rewrite split_from_cons, Ec. exact IH.
  - reflexivity.
Qed.

Lemma split_from_rstrip (s : string) :
  forall cur : string,
    PyStr.split_from cur (PyStr.rstrip_by PyStr.isspace s)
    = PyStr.split_from cur s.
Proof.
  induction s as [|c s IH]; intros cur; [reflexivity|].
  cbn [PyStr.rstrip_by].
  destruct (PyStr.rstrip_by PyStr.isspace s) as [|c' t] eqn:E.
  - rewrite (split_from_cons cur c s).
    destruct (PyStr.isspace c) eqn:Ec.
    + rewrite <- IH. reflexivity.
    + rewrite split_from_cons, Ec. apply IH.
  - rewrite (split_from_cons cur c s), (split_from_cons cur c (String c' t)).
    rewrite !IH. reflexivity.
Qed.

(** stripping the text first does not change its tokens *)
Lemma split_strip (s : string) :
  PyStr.split (PyStr.strip s) = PyStr.split s.
Proof.
  unfold PyStr.split, PyStr.strip, PyStr.strip_by.
  rewrite split_from_rstrip. apply split_from_lstrip.
Qed.

Lemma step_malformed (coords : ring) (part : string) :
  malformed_token part ->
  exists bad, parse_coordinates_step coords part = Raise (ValueError_float bad).
Proof.
  unfold malformed_token, parse_coordinates_step.
  destruct (PyStr.split_on "," part) as [|a [|b rest]]; cbn [List.length].
  - intros [H _]. lia.
  - intros [H _]. lia.
  - intros [_ H]. cbn [Nat.leb firstn nth] in *. unfold py_float.
    destruct (PyFloat.of_string a) as [lon|].
    + destruct H as [H|H]; [discriminate|]. rewrite H.
      exists b. reflexivity.
    + exists a. reflexivity.
Qed.

Lemma step_raises_float (coords : ring) (part : string) (e : exn) :
  parse_coordinates_step coords part = Raise e ->
  exists bad, e = ValueError_float bad.
Proof.
  unfold parse_coordinates_step, py_float.
  destruct (2 <=? List.length (PyStr.split_on "," part))%nat; [|discriminate].
  destruct (PyFloat.of_string _) as [lon|]; cbn [rbind].
  - destruct (PyFloat.of_string _) as [lat|]; cbn [rbind]; [discriminate|].
    intros H. injection H as <-. eexists. reflexivity.
  - intros H. injection H as <-. eexists. reflexivity.
Qed.

Lemma loop_malformed (parts : list string) :
  forall (coords : ring) (part : string),
    In part parts -> malformed_token part ->
    exists bad, parse_coordinates_loop coords parts = Raise (ValueError_float bad).
Proof.
  induction parts as [|a parts IH]; intros coords part Hin Hbad.
  - destruct Hin.
  - cbn [parse_coordinates_loop].
    destruct (parse_coordinates_step coords a) as [coords'|e] eqn:E.
    + destruct Hin as [->|Hin].
      * destruct (step_malformed coords part Hbad) as [bad Hs]. congruence.
      * cbn [rbind]. exact (IH coords' part Hin Hbad).
    + destruct (step_raises_float _ _ _ E) as [bad ->].
      exists bad. reflexivity.
Qed.

Lemma parse_coordinates_malformed (coord_text part : string) :
  In part (PyStr.split coord_text) -> malformed_token part ->
  exists bad, parse_coordinates coord_text = Raise (ValueError_float bad).
Proof.
  intros Hin Hbad. unfold parse_coordinates. rewrite split_strip.
  exact (loop_malformed _ [] part Hin Hbad).
Qed.

Lemma parse_interiors_raises (inner_rings : list element) :
  forall (inner : element) (t : string) (e : exn),
    In inner inner_rings -> ET.text inner = Some t ->
    PyStr.nonempty t = true -> parse_coordinates t = Raise e ->
    exists e', parse_interiors inner_rings = Raise e'.
Proof.
  induction inner_rings as [|a rest IH]; intros inner t e Hin Ht Hne Hp.
  - destruct Hin.
  - cbn [parse_interiors]. destruct Hin as [->|Hin].
    + rewrite Ht, Hne, Hp. eexists. reflexivity.
    + destruct (IH inner t e Hin Ht Hne Hp) as [e' He'].
      destruct (ET.text a) as [ta|]; [|eauto].
      destruct (PyStr.nonempty ta); [|eauto].
      destruct (parse_coordinates ta); cbn [rbind].
      * rewrite He'. eexists. reflexivity.
      * eexists. reflexivity.
Qed.

(** empty text, a third component, a token of one component *)
Lemma parse_coordinates_examples :
  parse_coordinates EmptyString = Ok []
  /\ parse_coordinates "   " = Ok []
  /\ parse_coordinates "-97.5,30.25,150 7 -97.25,30.5"
     = Ok [(-97.5, 30.25); (-97.25, 30.5)]%float
  /\ parse_coordinates "1,2 3,,4" = Raise (ValueError_float EmptyString).
Proof. repeat split; vm_compute; reflexivity. Qed.

(** ** Two decimal places, and the sum *)








(** ** The traced computations of [main] *)

Lemma tbind_lift_ok {A B : Type} (a : A) (f : A -> traced B) :
  tbind (lift (Ok a)) f = f a.
Proof. unfold tbind, lift. destruct (f a). reflexivity. Qed.

Lemma tbind_lift_raise {A B : Type} (e : exn) (f : A -> traced B) :
  tbind (lift (Raise e)) f = ([], Raise e).
Proof. reflexivity. Qed.

Lemma tbind_raise {A B : Type} (tr : list event) (e : exn) (f : A -> traced B) :
  tbind (tr, Raise e) f = (tr, Raise e).
Proof. reflexivity. Qed.

Section PipelineFacts.

Variable projected_area : ring -> list ring -> result float.
Variable py_sum : list float -> float.
Variable csv_path : string.

Lemma calculated_acres_eq (exterior : ring) (interiors : list ring) :
  calculated_acres projected_area exterior interiors
  = ([GeometricArea exterior interiors],
     area_m2 <- projected_area exterior interiors ;;
     Ok (area_m2 / 4046.86)%float).
Proof.
  unfold calculated_acres, emit, tbind, lift, tret.
  destruct (projected_area exterior interiors); reflexivity.
Qed.

(** the placemark once its fields are extracted *)
Lemma main_placemark_extracted (pm polygon : element) (name : string)
    (area_info : option (float * string))
    (exterior : option ring) (interiors : list ring) :
  ET.find_descendant (ET.kml "Polygon") pm = Some polygon ->
  placemark_name pm = Ok name ->
  parse_area_from_description (placemark_description pm) = Ok area_info ->
  extract_polygon_coords polygon = Ok (exterior, interiors) ->
  main_placemark projected_area pm =
    match usable exterior with
    | None => ([LogWarning (no_coordinates_warning name)], Ok None)
    | Some ext =>
        area_acres <~ determine_area projected_area name area_info ext interiors ;;
        tret (Some (name, area_acres))
    end.
Proof.
  intros Hp Hn Ha He. unfold main_placemark.
  rewrite Hp, Hn, tbind_lift_ok, Ha, tbind_lift_ok, He, tbind_lift_ok.
  destruct (usable exterior); reflexivity.
Qed.

(** ** The fallback chain *)

(** C1. For every polygon record (a placemark whose name, annotation
    and rings were extracted, the exterior not empty): with an
    annotation whose unit the normalizer converts, the acres are the
    normalizer's; with an annotation whose unit it does not recognize,
    the warning naming the unit and the polygon is logged and the
    geometric area calculator is used; with no annotation, the
    geometric area calculator is used directly. *)
Theorem fallback_chain :
  forall (pm polygon : element) (name : string)
         (area_info : option (float * string))
         (exterior : ring) (interiors : list ring),
    ET.find_descendant (ET.kml "Polygon") pm = Some polygon ->
    placemark_name pm = Ok name ->
    parse_area_from_description (placemark_description pm) = Ok area_info ->
    extract_polygon_coords polygon = Ok (Some exterior, interiors) ->
    exterior <> [] ->
    main_placemark projected_area pm =
      match area_info with
      | Some (value, unit) =>
          match convert_to_acres value unit with
          | Ok area_acres => ([], Ok (Some (name, area_acres)))
          | Raise _ =>
              ([LogWarning ("Unknown unit '" ++ unit ++ "' for polygon '"
                              ++ name ++ "', calculating area instead.");
                GeometricArea exterior interiors],
               area_m2 <- projected_area exterior interiors ;;
               Ok (Some (name, (area_m2 / 4046.86)%float)))
          end
      | None =>
          ([GeometricArea exterior interiors],
           area_m2 <- projected_area exterior interiors ;;
           Ok (Some (name, (area_m2 / 4046.86)%float)))
      end.
Proof.
  intros pm polygon name area_info exterior interiors Hp Hn Ha He Hne.
  rewrite (main_placemark_extracted _ _ _ _ _ _ Hp Hn Ha He).
  destruct exterior as [|p ps]; [contradiction|]. cbn [usable].
  unfold determine_area.
  destruct area_info as [[value unit]|].
  - destruct (convert_to_acres value unit) as [a|e] eqn:Ec.
    + reflexivity.
    + apply convert_to_acres_raises in Ec. subst e. cbn [is_ValueError].
      rewrite calculated_acres_eq. unfold emit, tbind, tret.
      destruct (projected_area (p :: ps) interiors); reflexivity.
  - rewrite calculated_acres_eq. unfold tbind, tret.
    destruct (projected_area (p :: ps) interiors); reflexivity.
Qed.

(** ** Rows and names *)

Lemma tbind_row_inv (m : traced float) (name : string) (tr : list event)
    (row : option (string * float)) :
  (area_acres <~ m ;; tret (Some (name, area_acres))) = (tr, Ok row) ->
  exists acres, m = (tr, Ok acres) /\ row = Some (name, acres).
Proof.
  destruct m as [tr0 [a|e]]; unfold tbind, tret; intros H.
  - injection H as <- <-. exists a. rewrite app_nil_r. auto.
  - discriminate.
Qed.

(** what a placemark that adds a row went through *)
Lemma main_placemark_row (pm : element) (tr : list event)
    (name : string) (acres : float) :
  main_placemark projected_area pm = (tr, Ok (Some (name, acres))) ->
  exists polygon area_info exterior interiors,
    ET.find_descendant (ET.kml "Polygon") pm = Some polygon
    /\ placemark_name pm = Ok name
    /\ parse_area_from_description (placemark_description pm) = Ok area_info
    /\ extract_polygon_coords polygon = Ok (Some exterior, interiors)
    /\ exterior <> []
    /\ determine_area projected_area name area_info exterior interiors
       = (tr, Ok acres).
Proof.
  unfold main_placemark.
  destruct (ET.find_descendant (ET.kml "Polygon") pm) as [polygon|] eqn:Hp;
    [|discriminate].
  destruct (placemark_name pm) as [name0|e] eqn:Hn; [|discriminate].
  rewrite tbind_lift_ok.
  destruct (parse_area_from_description (placemark_description pm))
    as [area_info|e] eqn:Ha; [|discriminate].
  rewrite tbind_lift_ok.
  destruct (extract_polygon_coords polygon) as [[exterior interiors]|e] eqn:He;
    [|discriminate].
  rewrite tbind_lift_ok.
  destruct exterior as [[|p ps]|]; cbn [usable]; try discriminate.
  intros H. apply tbind_row_inv in H. destruct H as [a [Hd Hr]].
  assert (Hname : name0 = name) by congruence.
  assert (Hacres : a = acres) by congruence.
  subst name0 a.
  exists polygon, area_info, (p :: ps), interiors.
  repeat split; auto. discriminate.
Qed.

(** C3 (amended). For every placemark that adds a row to the report,
    the reported name is the text of its name field trimmed of
    surrounding white space when the field is present and has text, and
    the sentinel [Unnamed] when the name field is missing. *)
Theorem reported_name :
  forall (pm : element) (tr : list event) (name : string) (acres : float),
    main_placemark projected_area pm = (tr, Ok (Some (name, acres))) ->
    match ET.find_path [ET.kml "name"] pm with
    | Some name_el => option_map PyStr.strip (ET.text name_el) = Some name
    | None => name = "Unnamed"
    end.
Proof.
  intros pm tr name acres H.
  apply main_placemark_row in H.
  destruct H as (polygon & area_info & exterior & interiors & _ & Hn & _).
  unfold placemark_name in Hn.
  destruct (ET.find_path [ET.kml "name"] pm) as [name_el|].
  - destruct (ET.text name_el) as [t|]; [|discriminate].
    injection Hn as <-. reflexivity.
  - injection Hn as <-. reflexivity.
Qed.

(** ** Rings without points *)


(** C10 (amended). A polygon record whose outer-boundary path is
    present, whose exterior coordinate text parses to zero points and
    whose interior rings parse, is treated as one whose outer-boundary
    path is absent: both are skipped with the same warning naming the
    polygon and add no row. *)
Theorem empty_exterior_like_absent :
  forall (pm1 pm2 polygon1 polygon2 outer_ring : element) (name : string)
         (area_info1 area_info2 : option (float * string))
         (coord_text : string) (interiors : list ring),
    ET.find_descendant (ET.kml "Polygon") pm1 = Some polygon1 ->
    ET.find_descendant (ET.kml "Polygon") pm2 = Some polygon2 ->
    placemark_name pm1 = Ok name ->
    placemark_name pm2 = Ok name ->
    parse_area_from_description (placemark_description pm1) = Ok area_info1 ->
    parse_area_from_description (placemark_description pm2) = Ok area_info2 ->
    ET.find_path outer_path polygon1 = Some outer_ring ->
    ET.text outer_ring = Some coord_text ->
    parse_coordinates coord_text = Ok [] ->
    parse_interiors (ET.findall_path inner_path polygon1) = Ok interiors ->
    ET.find_path outer_path polygon2 = None ->
    main_placemark projected_area pm1
      = ([LogWarning ("Polygon '" ++ name ++ "' has no coordinates.")],
         Ok None)
    /\ main_placemark projected_area pm2
      = ([LogWarning ("Polygon '" ++ name ++ "' has no coordinates.")],
         Ok None).
Proof.
  intros pm1 pm2 polygon1 polygon2 outer_ring name area_info1 area_info2
    coord_text interiors Hp1 Hp2 Hn1 Hn2 Ha1 Ha2 Ho Ht Hc Hi Habs.
  assert (He1 : extract_polygon_coords polygon1 = Ok (Some [], interiors)).
  { unfold extract_polygon_coords, parse_coordinates_of.
    rewrite Ho, Ht, Hc. cbn [rbind]. rewrite Hi. reflexivity. }
  assert (He2 : extract_polygon_coords polygon2 = Ok (None, [])).
  { unfold extract_polygon_coords. rewrite Habs. reflexivity. }
  rewrite (main_placemark_extracted _ _ _ _ _ _ Hp1 Hn1 Ha1 He1).
  rewrite (main_placemark_extracted _ _ _ _ _ _ Hp2 Hn2 Ha2 He2).
  split; reflexivity.
Qed.

(** ** Annotated areas *)

(** A placemark whose annotation the normalizer converts: whatever its
    coordinates are, it reports the normalizer's result, or is skipped
    for want of coordinates, or ends the run; it never reaches the
    geometry libraries. *)
Lemma recognized_annotation_outcomes (pm polygon : element) (name : string)
    (value : float) (unit : string) (acres : float) :
  ET.find_descendant (ET.kml "Polygon") pm = Some polygon ->
  placemark_name pm = Ok name ->
  parse_area_from_description (placemark_description pm)
    = Ok (Some (value, unit)) ->
  convert_to_acres value unit = Ok acres ->
  main_placemark projected_area pm = ([], Ok (Some (name, acres)))
  \/ main_placemark projected_area pm
     = ([LogWarning (no_coordinates_warning name)], Ok None)
  \/ exists e, main_placemark projected_area pm = ([], Raise e).
Proof.
  intros Hp Hn Ha Hc.
  destruct (extract_polygon_coords polygon) as [[exterior interiors]|e] eqn:He.
  - rewrite (main_placemark_extracted _ _ _ _ _ _ Hp Hn Ha He).
    destruct exterior as [[|p ps]|]; cbn [usable]; auto.
    left. unfold determine_area. rewrite Hc. reflexivity.
  - right. right. exists e. unfold main_placemark.
    rewrite Hp, Hn, tbind_lift_ok, Ha, tbind_lift_ok, He. reflexivity.
Qed.

(** C9 (amended). Take two polygon records with the same name and the
    same area annotation, whose unit the normalizer recognizes, and any
    coordinates.  Neither run hands anything to the geometric area
    calculator; every row they report carries the normalizer's result;
    and when the coordinate texts parse, with exterior rings of at
    least one point, both report exactly that row, with an empty
    trace.  (A coordinate text that is not empty may still yield no
    point, or fail to parse: such a record reports no row.) *)
Theorem annotated_area_ignores_coordinates :
  forall (pm1 pm2 polygon1 polygon2 : element) (name : string)
         (value : float) (unit : string) (acres : float),
    ET.find_descendant (ET.kml "Polygon") pm1 = Some polygon1 ->
    ET.find_descendant (ET.kml "Polygon") pm2 = Some polygon2 ->
    placemark_name pm1 = Ok name ->
    placemark_name pm2 = Ok name ->
    parse_area_from_description (placemark_description pm1)
      = Ok (Some (value, unit)) ->
    parse_area_from_description (placemark_description pm2)
      = Ok (Some (value, unit)) ->
    convert_to_acres value unit = Ok acres ->
    geometry_calls (fst (main_placemark projected_area pm1)) = []
    /\ geometry_calls (fst (main_placemark projected_area pm2)) = []
    /\ (forall tr1 tr2 row1 row2,
           main_placemark projected_area pm1 = (tr1, Ok (Some row1)) ->
           main_placemark projected_area pm2 = (tr2, Ok (Some row2)) ->
           row1 = (name, acres) /\ row2 = (name, acres))
    /\ (forall (exterior1 exterior2 : ring) (interiors1 interiors2 : list ring),
           extract_polygon_coords polygon1 = Ok (Some exterior1, interiors1) ->
           extract_polygon_coords polygon2 = Ok (Some exterior2, interiors2) ->
           exterior1 <> [] ->
           exterior2 <> [] ->
           main_placemark projected_area pm1 = ([], Ok (Some (name, acres)))
           /\ main_placemark projected_area pm2 = ([], Ok (Some (name, acres)))).
Proof.
  intros pm1 pm2 polygon1 polygon2 name value unit acres
    Hp1 Hp2 Hn1 Hn2 Ha1 Ha2 Hc.
  pose proof (recognized_annotation_outcomes _ _ _ _ _ _ Hp1 Hn1 Ha1 Hc) as O1.
  pose proof (recognized_annotation_outcomes _ _ _ _ _ _ Hp2 Hn2 Ha2 Hc) as O2.
  split; [|split; [|split]].
  - destruct O1 as [H|[H|[e H]]]; rewrite H; reflexivity.
  - destruct O2 as [H|[H|[e H]]]; rewrite H; reflexivity.
  - intros tr1 tr2 row1 row2 H1 H2. split.
    + destruct O1 as [H|[H|[e H]]]; rewrite H in H1; congruence.
    + destruct O2 as [H|[H|[e H]]]; rewrite H in H2; congruence.
  - intros exterior1 exterior2 interiors1 interiors2 He1 He2 Hne1 Hne2.
    rewrite (main_placemark_extracted _ _ _ _ _ _ Hp1 Hn1 Ha1 He1).
    rewrite (main_placemark_extracted _ _ _ _ _ _ Hp2 Hn2 Ha2 He2).
    destruct exterior1 as [|p1 ps1]; [contradiction|].
    destruct exterior2 as [|p2 ps2]; [contradiction|].
    cbn [usable]. unfold determine_area. rewrite Hc.
    split; reflexivity.
Qed.

(** ** Fatal errors *)

Lemma main_placemark_extract_raises (pm polygon : element) (e : exn) :
  ET.find_descendant (ET.kml "Polygon") pm = Some polygon ->
  extract_polygon_coords polygon = Raise e ->
  exists tr e', main_placemark projected_area pm = (tr, Raise e').
Proof.
  intros Hp He. unfold main_placemark. rewrite Hp.
  destruct (placemark_name pm) as [name|e1].
  2:{ rewrite tbind_lift_raise. eauto. }
  rewrite tbind_lift_ok.
  destruct (parse_area_from_description (placemark_description pm))
    as [area_info|e2].
  2:{ rewrite tbind_lift_raise. eauto. }
  rewrite tbind_lift_ok, He, tbind_lift_raise. eauto.
Qed.

Lemma main_loop_raises (pms : list element) :
  forall (results : list (string * float)) (pm : element),
    In pm pms ->
    (exists tr e, main_placemark projected_area pm = (tr, Raise e)) ->
    exists tr e, main_loop projected_area results pms = (tr, Raise e).
Proof.
  induction pms as [|a pms IH]; intros results pm Hin Hr.
  - destruct Hin.
  - cbn [main_loop].
    destruct (main_placemark projected_area a) as [tr [row|e]] eqn:E.
    + destruct Hin as [->|Hin].
      * destruct Hr as (tr' & e' & Hr). congruence.
      * destruct (IH (match row with
                      | Some r => results ++ [r]
                      | None => results
                      end) pm Hin Hr) as (tr' & e' & H').
        unfold tbind. rewrite H'. eauto.
    + rewrite tbind_raise. eauto.
Qed.

Lemma main_uncaught (root : element) :
  (exists tr e,
      main_loop projected_area []
        (ET.findall_descendants (ET.kml "Placemark") root) = (tr, Raise e)) ->
  exists e, status (main projected_area py_sum csv_path root) = Uncaught e
            /\ csv (main projected_area py_sum csv_path root) = None.
Proof.
  intros (tr & e & H). unfold main. rewrite H. exists e. split; reflexivity.
Qed.

Lemma split_nonempty (t part : string) :
  In part (PyStr.split t) -> PyStr.nonempty t = true.
Proof. destruct t; [intros [] | reflexivity]. Qed.

(** C6. A coordinate text with a token of at least two comma-separated
    components, one of the first two not numeric, makes
    [parse_coordinates] raise; and where that text is the exterior or
    an interior ring of a placemark's polygon, the exception leaves
    [main]: the run ends with it and writes no report. *)
Theorem malformed_token_is_fatal :
  forall (coord_text part : string),
    In part (PyStr.split coord_text) ->
    malformed_token part ->
    (exists bad, parse_coordinates coord_text = Raise (ValueError_float bad))
    /\ (forall (root pm polygon outer_ring : element),
           In pm (ET.findall_descendants (ET.kml "Placemark") root) ->
           ET.find_descendant (ET.kml "Polygon") pm = Some polygon ->
           ET.find_path outer_path polygon = Some outer_ring ->
           ET.text outer_ring = Some coord_text ->
           exists e,
             status (main projected_area py_sum csv_path root) = Uncaught e
             /\ csv (main projected_area py_sum csv_path root) = None)
    /\ (forall (root pm polygon outer_ring inner : element),
           In pm (ET.findall_descendants (ET.kml "Placemark") root) ->
           ET.find_descendant (ET.kml "Polygon") pm = Some polygon ->
           ET.find_path outer_path polygon = Some outer_ring ->
           In inner (ET.findall_path inner_path polygon) ->
           ET.text inner = Some coord_text ->
           exists e,
             status (main projected_area py_sum csv_path root) = Uncaught e
             /\ csv (main projected_area py_sum csv_path root) = None).
Proof.
  intros coord_text part Hin Hbad.
  destruct (parse_coordinates_malformed _ _ Hin Hbad) as [bad Hparse].
  split; [eauto|]. split.
  - intros root pm polygon outer_ring Hpm Hp Ho Ht.
    apply main_uncaught. apply (main_loop_raises _ [] pm Hpm).
    apply (main_placemark_extract_raises pm polygon (ValueError_float bad) Hp).
    unfold extract_polygon_coords, parse_coordinates_of.
    rewrite Ho, Ht, Hparse. reflexivity.
  - intros root pm polygon outer_ring inner Hpm Hp Ho Hi Ht.
    apply main_uncaught. apply (main_loop_raises _ [] pm Hpm).
    destruct (parse_interiors_raises _ inner coord_text _ Hi Ht
                (split_nonempty _ _ Hin) Hparse) as [e' He'].
    unfold extract_polygon_coords in *. 
    destruct (parse_coordinates_of (ET.text outer_ring)) as [ext|e0] eqn:Ex.
    + apply (main_placemark_extract_raises pm polygon e' Hp).
      unfold extract_polygon_coords. rewrite Ho, Ex. cbn [rbind].
      rewrite He'. reflexivity.
    + apply (main_placemark_extract_raises pm polygon e0 Hp).
      unfold extract_polygon_coords. rewrite Ho, Ex. reflexivity.
Qed.

(** ** The report *)



Lemma write_rows_length (total : float) (results : list (string * float)) :
  forall first, List.length (write_rows total first results) = List.length results.
Proof.
  induction results as [|[name area] results IH]; intros first;
    [reflexivity|].
  cbn [write_rows List.length]. rewrite IH. reflexivity.
Qed.



End PipelineFacts.

(** * The properties on sample documents *)

Ltac evaluate := vm_compute; reflexivity.

(** C1 on a record whose annotation is in furlongs: the warning, then
    the geometric area. *)
Lemma fallback_chain_witness :
  ET.find_descendant (ET.kml "Polygon") Sample.pm_furlongs
    = Some Sample.square_polygon
  /\ placemark_name Sample.pm_furlongs = Ok "Unnamed"
  /\ parse_area_from_description (placemark_description Sample.pm_furlongs)
     = Ok (Some (3%float, "furlongs"))
  /\ extract_polygon_coords Sample.square_polygon
     = Ok (Some Sample.square_ring, [])
  /\ Sample.square_ring <> []
  /\ main_placemark Sample.planar_area Sample.pm_furlongs
     = ([LogWarning
           "Unknown unit 'furlongs' for polygon 'Unnamed', calculating area instead.";
         GeometricArea Sample.square_ring []],
        area_m2 <- Sample.planar_area Sample.square_ring [] ;;
        Ok (Some ("Unnamed", (area_m2 / 4046.86)%float))).
Proof.
  assert (h1 : ET.find_descendant (ET.kml "Polygon") Sample.pm_furlongs
               = Some Sample.square_polygon) by evaluate.
  assert (h2 : placemark_name Sample.pm_furlongs = Ok "Unnamed") by evaluate.
  assert (h3 : parse_area_from_description
                 (placemark_description Sample.pm_furlongs)
               = Ok (Some (3%float, "furlongs"))) by evaluate.
  assert (h4 : extract_polygon_coords Sample.square_polygon
               = Ok (Some Sample.square_ring, [])) by evaluate.
  assert (h5 : Sample.square_ring <> []) by discriminate.
  exact (conj h1 (conj h2 (conj h3 (conj h4 (conj h5
    (fallback_chain Sample.planar_area _ _ _ _ _ _ h1 h2 h3 h4 h5)))))).
Defined.

(** the annotation of C5 ends the whole run *)
Lemma dotted_number_ends_run :
  Sample.run_main (Sample.document [Sample.pm_acres; Sample.pm_dotted])
  = {| log := [];
       stdout := [];
       csv := None;
       status := Uncaught (ValueError_float "1.2.3") |}.
Proof. evaluate. Qed.

(** C3 as stated fails: a name of white space only is reported as the
    empty name, not as the sentinel. *)
Lemma blank_name_not_defaulted :
  ET.find_path [ET.kml "name"] Sample.pm_blank_name
    = Some (Sample.leaf "name" "   ")
  /\ PyStr.strip "   " = EmptyString
  /\ main_placemark Sample.planar_area Sample.pm_blank_name
     = ([], Ok (Some (EmptyString, 5.2%float)))
  /\ EmptyString <> "Unnamed".
Proof.
  split; [evaluate|]. split; [evaluate|]. split; [evaluate|]. discriminate.
Qed.

(** a name field without text ends the run *)
Lemma empty_name_raises :
  main_placemark Sample.planar_area
    (Sample.placemark [Element (ET.kml "name") None []; Sample.square_polygon])
  = ([], Raise AttributeError_strip).
Proof. evaluate. Qed.

Lemma reported_name_witness :
  main_placemark Sample.planar_area Sample.pm_acres
    = ([], Ok (Some ("North field", 10%float)))
  /\ match ET.find_path [ET.kml "name"] Sample.pm_acres with
     | Some name_el =>
         option_map PyStr.strip (ET.text name_el) = Some "North field"
     | None => "North field" = "Unnamed"
     end.
Proof.
  assert (h : main_placemark Sample.planar_area Sample.pm_acres
              = ([], Ok (Some ("North field", 10%float)))) by evaluate.
  exact (conj h (reported_name Sample.planar_area _ _ _ _ h)).
Defined.

(** an exterior ring of two points without annotation is handed to the
    geometric area calculator *)
Lemma two_point_ring_measured :
  extract_polygon_coords Sample.two_point_polygon
    = Ok (Some [(0, 0); (1, 1)]%float, [])
  /\ (List.length [(0, 0); (1, 1)]%float < 3)%nat
  /\ fst (main_placemark Sample.planar_area Sample.pm_two_points)
     = [GeometricArea [(0, 0); (1, 1)]%float []].
Proof.
  split; [evaluate|]. split; [cbn; lia | evaluate].
Qed.



(** C6 on a ring whose second token has a letter for its latitude. *)
Lemma malformed_token_is_fatal_witness :
  In "3,x" (PyStr.split "1,2 3,x 4,5")
  /\ malformed_token "3,x"
  /\ (exists bad, parse_coordinates "1,2 3,x 4,5" = Raise (ValueError_float bad))
  /\ (exists e,
        status (Sample.run_main (Sample.document [Sample.pm_acres; Sample.pm_malformed]))
        = Uncaught e
        /\ csv (Sample.run_main (Sample.document [Sample.pm_acres; Sample.pm_malformed]))
           = None).
Proof.
  assert (h1 : In "3,x" (PyStr.split "1,2 3,x 4,5")).
  { vm_compute. right. left. reflexivity. }
  assert (h2 : malformed_token "3,x").
  { split; [vm_compute; lia | right; vm_compute; reflexivity]. }
  pose proof (malformed_token_is_fatal Sample.planar_area Sample.add_all
                "polygon_areas.csv" _ _ h1 h2) as [w1 [w2 _]].
  refine (conj h1 (conj h2 (conj w1
    (w2 (Sample.document [Sample.pm_acres; Sample.pm_malformed])
        Sample.pm_malformed Sample.malformed_polygon
        (Sample.leaf "coordinates" "1,2 3,x 4,5") _ _ _ _)))).
  - vm_compute. right. left. reflexivity.
  - evaluate.
  - evaluate.
  - reflexivity.
Defined.



(** the report of that document, as written *)
Lemma report_sample :
  csv (Sample.run_main Sample.fields)
  = Some [["Polygon Name"; "Total Acreage"; "Total"];
          ["North field"; "10.00"; "15.20"];
          [EmptyString; "5.20"; EmptyString];
          ["Unnamed"; "0.00"; EmptyString]].
Proof. evaluate. Qed.


(** C9 on one record over two different rings. *)
Lemma annotated_area_ignores_coordinates_witness :
  ET.find_descendant (ET.kml "Polygon") Sample.pm_acres
    = Some Sample.square_polygon
  /\ ET.find_descendant (ET.kml "Polygon") Sample.pm_acres_moved
     = Some Sample.moved_polygon
  /\ placemark_name Sample.pm_acres = Ok "North field"
  /\ placemark_name Sample.pm_acres_moved = Ok "North field"
  /\ parse_area_from_description (placemark_description Sample.pm_acres)
     = Ok (Some (10%float, "acres"))
  /\ parse_area_from_description (placemark_description Sample.pm_acres_moved)
     = Ok (Some (10%float, "acres"))
  /\ convert_to_acres 10 "acres" = Ok 10%float
  /\ geometry_calls (fst (main_placemark Sample.planar_area Sample.pm_acres))
     = []
  /\ geometry_calls
       (fst (main_placemark Sample.planar_area Sample.pm_acres_moved)) = []
  /\ main_placemark Sample.planar_area Sample.pm_acres
     = ([], Ok (Some ("North field", 10%float)))
  /\ main_placemark Sample.planar_area Sample.pm_acres_moved
     = ([], Ok (Some ("North field", 10%float))).
Proof.
  assert (h1 : ET.find_descendant (ET.kml "Polygon") Sample.pm_acres
               = Some Sample.square_polygon) by evaluate.
  assert (h2 : ET.find_descendant (ET.kml "Polygon") Sample.pm_acres_moved
               = Some Sample.moved_polygon) by evaluate.
  assert (h3 : placemark_name Sample.pm_acres = Ok "North field") by evaluate.
  assert (h4 : placemark_name Sample.pm_acres_moved = Ok "North field")
    by evaluate.
  assert (h5 : parse_area_from_description
                 (placemark_description Sample.pm_acres)
               = Ok (Some (10%float, "acres"))) by evaluate.
  assert (h6 : parse_area_from_description
                 (placemark_description Sample.pm_acres_moved)
               = Ok (Some (10%float, "acres"))) by evaluate.
  assert (h7 : convert_to_acres 10 "acres" = Ok 10%float) by evaluate.
  pose proof (annotated_area_ignores_coordinates Sample.planar_area
                _ _ _ _ _ _ _ _ h1 h2 h3 h4 h5 h6 h7)
    as [w1 [w2 [_ w4]]].
  assert (e1 : extract_polygon_coords Sample.square_polygon
               = Ok (Some Sample.square_ring, [])) by evaluate.
  assert (e2 : extract_polygon_coords Sample.moved_polygon
               = Ok (Some [(5, 5); (6, 5); (6, 6); (5, 6)]%float, []))
    by evaluate.
  assert (n1 : Sample.square_ring <> []) by discriminate.
  assert (n2 : [(5, 5); (6, 5); (6, 6); (5, 6)]%float <> []) by discriminate.
  destruct (w4 _ _ _ _ e1 e2 n1 n2) as [r1 r2].
  repeat (split; [assumption|]). assumption.
Defined.

(** C9 as stated fails: of three records that differ only in their
    coordinate text, none of them empty, one reports the annotated
    acres, one is skipped and one ends the run. *)
Lemma coordinate_text_changes_outcome :
  parse_area_from_description
    (placemark_description Edge.pm_acres_no_points)
    = Ok (Some (10%float, "acres"))
  /\ parse_area_from_description
       (placemark_description Edge.pm_acres_malformed)
     = Ok (Some (10%float, "acres"))
  /\ convert_to_acres 10 "acres" = Ok 10%float
  /\ ET.find_path outer_path Sample.no_point_polygon
     = Some (Sample.leaf "coordinates" "7")
  /\ ET.find_path outer_path Sample.malformed_polygon
     = Some (Sample.leaf "coordinates" "1,2 3,x 4,5")
  /\ (forall projected_area : ring -> list ring -> result float,
        main_placemark projected_area Sample.pm_acres
        = ([], Ok (Some ("North field", 10%float))))
  /\ (forall projected_area : ring -> list ring -> result float,
        main_placemark projected_area Edge.pm_acres_no_points
        = ([LogWarning "Polygon 'North field' has no coordinates."],
           Ok None))
  /\ (forall projected_area : ring -> list ring -> result float,
        main_placemark projected_area Edge.pm_acres_malformed
        = ([], Raise (ValueError_float "x"))).
Proof.
  do 5 (split; [evaluate|]).
  split; [intros projected_area; evaluate|].
  split; intros projected_area; evaluate.
Qed.

(** C10 as stated fails: with an interior ring that does not parse, the
    record whose exterior has no points ends the run, while the record
    without outer boundary is skipped. *)
Lemma bad_hole_tells_apart :
  ET.find_path outer_path Sample.no_point_bad_hole_polygon
    = Some (Sample.leaf "coordinates" "7")
  /\ parse_coordinates "7" = Ok []
  /\ ET.find_path outer_path Sample.no_outer_bad_hole_polygon = None
  /\ main_placemark Sample.planar_area Sample.pm_no_points_bad_hole
     = ([], Raise (ValueError_float "a"))
  /\ main_placemark Sample.planar_area Sample.pm_no_outer_bad_hole
     = ([LogWarning "Polygon 'P' has no coordinates."], Ok None).
Proof.
  repeat (split; [evaluate|]). evaluate.
Qed.

Lemma empty_exterior_like_absent_witness :
  ET.find_descendant (ET.kml "Polygon") Sample.pm_no_points
    = Some Sample.no_point_polygon
  /\ ET.find_descendant (ET.kml "Polygon") Sample.pm_no_outer
     = Some Sample.no_outer_polygon
  /\ placemark_name Sample.pm_no_points = Ok "P"
  /\ placemark_name Sample.pm_no_outer = Ok "P"
  /\ parse_area_from_description (placemark_description Sample.pm_no_points)
     = Ok None
  /\ parse_area_from_description (placemark_description Sample.pm_no_outer)
     = Ok None
  /\ ET.find_path outer_path Sample.no_point_polygon
     = Some (Sample.leaf "coordinates" "7")
  /\ ET.text (Sample.leaf "coordinates" "7") = Some "7"
  /\ parse_coordinates "7" = Ok []
  /\ parse_interiors (ET.findall_path inner_path Sample.no_point_polygon)
     = Ok []
  /\ ET.find_path outer_path Sample.no_outer_polygon = None
  /\ main_placemark Sample.planar_area Sample.pm_no_points
     = ([LogWarning "Polygon 'P' has no coordinates."], Ok None)
  /\ main_placemark Sample.planar_area Sample.pm_no_outer
     = ([LogWarning "Polygon 'P' has no coordinates."], Ok None).
Proof.
  assert (h1 : ET.find_descendant (ET.kml "Polygon") Sample.pm_no_points
               = Some Sample.no_point_polygon) by evaluate.
  assert (h2 : ET.find_descendant (ET.kml "Polygon") Sample.pm_no_outer
               = Some Sample.no_outer_polygon) by evaluate.
  assert (h3 : placemark_name Sample.pm_no_points = Ok "P") by evaluate.
  assert (h4 : placemark_name Sample.pm_no_outer = Ok "P") by evaluate.
  assert (h5 : parse_area_from_description
                 (placemark_description Sample.pm_no_points) = Ok None)
    by evaluate.
  assert (h6 : parse_area_from_description
                 (placemark_description Sample.pm_no_outer) = Ok None)
    by evaluate.
  assert (h7 : ET.find_path outer_path Sample.no_point_polygon
               = Some (Sample.leaf "coordinates" "7")) by evaluate.
  assert (h8 : ET.text (Sample.leaf "coordinates" "7") = Some "7")
    by reflexivity.
  assert (h9 : parse_coordinates "7" = Ok []) by evaluate.
  assert (h10 : parse_interiors
                  (ET.findall_path inner_path Sample.no_point_polygon)
                = Ok []) by evaluate.
  assert (h11 : ET.find_path outer_path Sample.no_outer_polygon = None)
    by evaluate.
  pose proof (empty_exterior_like_absent Sample.planar_area
                _ _ _ _ _ _ _ _ _ _ h1 h2 h3 h4 h5 h6 h7 h8 h9 h10 h11)
    as [w1 w2].
  repeat (split; [assumption|]). assumption.
Defined.

(** * Further properties of the script *)

(** ** parse_coordinates *)

Lemma split_blank (s : string) :
  PyStr.all_chars PyStr.isspace s = true -> PyStr.split s = [].
Proof.
  unfold PyStr.split.
  induction s as [|c s IH]; [reflexivity|].
  cbn [PyStr.all_chars]. intros H. apply andb_prop in H. destruct H as [Hc Hs].
  rewrite split_from_cons, Hc. cbn [PyStr.flush]. exact (IH Hs).
Qed.

(** X1. Coordinate text that is empty or only white space parses to the
    empty ring: it is no error. *)
Theorem parse_coordinates_blank :
  forall coord_text : string,
    PyStr.all_chars PyStr.isspace coord_text = true ->
    parse_coordinates coord_text = Ok [].
Proof.
  intros coord_text H. unfold parse_coordinates.
  rewrite split_strip, (split_blank _ H). reflexivity.
Qed.

Lemma parse_coordinates_blank_witness :
  PyStr.all_chars PyStr.isspace "  " = true
  /\ parse_coordinates "  " = Ok [].
Proof.
  assert (h : PyStr.all_chars PyStr.isspace "  " = true) by reflexivity.
  exact (conj h (parse_coordinates_blank _ h)).
Defined.

Lemma step_ok (coords coords' : ring) (part : string) :
  parse_coordinates_step coords part = Ok coords' ->
  (has_two_components part = false /\ coords' = coords)
  \/ (has_two_components part = true
      /\ exists pt, coords' = coords ++ [pt] /\ token_point part pt).
Proof.
  unfold parse_coordinates_step, has_two_components, token_point, py_float.
  destruct (PyStr.split_on "," part) as [|lon [|lat rest]];
    cbn [List.length Nat.leb firstn nth].
  - intros H. left. split; congruence.
  - intros H. left. split; congruence.
  - destruct (PyFloat.of_string lon) as [x|] eqn:Ex; cbn [rbind];
      [|discriminate].
    destruct (PyFloat.of_string lat) as [y|] eqn:Ey; cbn [rbind];
      [|discriminate].
    intros H. right. split; [reflexivity|].
    exists (x, y). split; [injection H as <-; reflexivity|].
    exists lon, lat, rest. auto.
Qed.

Lemma loop_ok (parts : list string) :
  forall coords out : ring,
    parse_coordinates_loop coords parts = Ok out ->
    exists added,
      out = coords ++ added
      /\ Forall2 token_point (filter has_two_components parts) added.
Proof.
  induction parts as [|part parts IH]; intros coords out H;
    cbn [parse_coordinates_loop] in H.
  - exists []. rewrite app_nil_r. split; [congruence | constructor].
  - destruct (parse_coordinates_step coords part) as [coords'|e] eqn:E;
      cbn [rbind] in H; [|discriminate].
    destruct (IH _ _ H) as (added & Hout & Hall).
    cbn [filter].
    destruct (step_ok _ _ _ E) as [[Hn ->]|[Hy (pt & -> & Hpt)]].
    + rewrite Hn. exists added. auto.
    + rewrite Hy. exists (pt :: added). split.
      * rewrite Hout, <- app_assoc. reflexivity.
      * constructor; assumption.
Qed.

(** X2. A ring that [parse_coordinates] returns has one point for each
    token of at least two comma-separated components, in the order of
    the text, read from the first two components of its token: tokens of
    one component are dropped, and a third component (the altitude) has
    no part in the result. *)
Theorem parse_coordinates_points :
  forall (coord_text : string) (coords : ring),
    parse_coordinates coord_text = Ok coords ->
    Forall2 token_point
      (filter has_two_components (PyStr.split coord_text)) coords.
Proof.
  intros coord_text coords H. unfold parse_coordinates in H.
  rewrite split_strip in H.
  destruct (loop_ok _ _ _ H) as (added & -> & Hall). exact Hall.
Qed.

Lemma parse_coordinates_points_witness :
  parse_coordinates "-97.5,30.25,150 7 -97.25,30.5"
    = Ok [(-97.5, 30.25); (-97.25, 30.5)]%float
  /\ Forall2 token_point
       (filter has_two_components
          (PyStr.split "-97.5,30.25,150 7 -97.25,30.5"))
       [(-97.5, 30.25); (-97.25, 30.5)]%float.
Proof.
  assert (h : parse_coordinates "-97.5,30.25,150 7 -97.25,30.5"
              = Ok [(-97.5, 30.25); (-97.25, 30.5)]%float) by evaluate.
  exact (conj h (parse_coordinates_points _ _ h)).
Defined.

Lemma step_raises_malformed (coords : ring) (part : string) (e : exn) :
  parse_coordinates_step coords part = Raise e -> malformed_token part.
Proof.
  unfold parse_coordinates_step, malformed_token, py_float.
  destruct (PyStr.split_on "," part) as [|lon [|lat rest]];
    cbn [List.length Nat.leb firstn nth]; try discriminate.
  intros H. split; [lia|].
  destruct (PyFloat.of_string lon); [|auto].
  destruct (PyFloat.of_string lat); [discriminate | auto].
Qed.

Lemma loop_raises_malformed (parts : list string) :
  forall (coords : ring) (e : exn),
    parse_coordinates_loop coords parts = Raise e ->
    exists part, In part parts /\ malformed_token part.
Proof.
  induction parts as [|a parts IH]; intros coords e H;
    cbn [parse_coordinates_loop] in H; [discriminate|].
  destruct (parse_coordinates_step coords a) as [coords'|e'] eqn:E;
    cbn [rbind] in H.
  - destruct (IH _ _ H) as (part & Hin & Hbad).
    exists part. split; [right; exact Hin | exact Hbad].
  - exists a. split; [left; reflexivity|].
    exact (step_raises_malformed _ _ _ E).
Qed.

(** X3. [parse_coordinates] raises exactly when the text has a malformed
    token: at least two components, one of the first two not numeric.
    Anything else in the text, a token of one component or a bad third
    component, is no error. *)
Theorem parse_coordinates_raises_iff :
  forall coord_text : string,
    (exists e, parse_coordinates coord_text = Raise e)
    <-> (exists part,
            In part (PyStr.split coord_text) /\ malformed_token part).
Proof.
  intros coord_text. split.
  - intros [e H]. unfold parse_coordinates in H. rewrite split_strip in H.
    exact (loop_raises_malformed _ _ _ H).
  - intros (part & Hin & Hbad).
    destruct (parse_coordinates_malformed _ _ Hin Hbad) as [bad H].
    eauto.
Qed.

Lemma split_from_app (a : string) :
  forall (cur : string) (c : ascii) (b : string),
    PyStr.isspace c = true ->
    PyStr.split_from cur (a ++ String c b)
    = PyStr.split_from cur a ++ PyStr.split_from EmptyString b.
Proof.
  induction a as [|d a IH]; intros cur c b Hc.
  - cbn [append]. rewrite split_from_cons, Hc. cbn [PyStr.split_from].
    destruct cur; reflexivity.
  - cbn [append]. rewrite !split_from_cons.
    destruct (PyStr.isspace d).
    + rewrite (IH _ _ _ Hc). destruct cur; reflexivity.
    + apply IH. exact Hc.
Qed.

Lemma loop_app (parts1 : list string) :
  forall (parts2 : list string) (coords : ring),
    parse_coordinates_loop coords (parts1 ++ parts2)
    = (coords' <- parse_coordinates_loop coords parts1 ;;
       parse_coordinates_loop coords' parts2).
Proof.
  induction parts1 as [|p parts1 IH]; intros parts2 coords; [reflexivity|].
  cbn [app parse_coordinates_loop].
  destruct (parse_coordinates_step coords p); cbn [rbind]; [apply IH|].
  reflexivity.
Qed.

Lemma loop_shift (parts : list string) :
  forall coords out : ring,
    parse_coordinates_loop [] parts = Ok out ->
    parse_coordinates_loop coords parts = Ok (coords ++ out).
Proof.
  induction parts as [|p parts IH] using rev_ind; intros coords out H.
  - cbn in *. injection H as <-. rewrite app_nil_r. reflexivity.
  - rewrite loop_app in *.
    destruct (parse_coordinates_loop [] parts) as [mid|e] eqn:E;
      cbn [rbind] in H; [|discriminate].
    rewrite (IH coords mid eq_refl). cbn [rbind].
    cbn [parse_coordinates_loop] in *.
    unfold parse_coordinates_step in *.
    destruct (2 <=? List.length (PyStr.split_on "," p))%nat.
    + destruct (py_float _); cbn [rbind] in *; [|discriminate].
      destruct (py_float _); cbn [rbind] in *; [|discriminate].
      injection H as <-. rewrite app_assoc. reflexivity.
    + cbn [rbind] in *. injection H as <-. reflexivity.
Qed.

(** X4. Parsing two coordinate texts joined by a white space character
    gives the two rings one after the other: points depend on their own
    token only. *)
Theorem parse_coordinates_app :
  forall (text1 text2 : string) (c : ascii) (ring1 ring2 : ring),
    PyStr.isspace c = true ->
    parse_coordinates text1 = Ok ring1 ->
    parse_coordinates text2 = Ok ring2 ->
    parse_coordinates (text1 ++ String c text2) = Ok (ring1 ++ ring2).
Proof.
  intros text1 text2 c ring1 ring2 Hc H1 H2.
  unfold parse_coordinates in *. rewrite split_strip in *.
  unfold PyStr.split in *. rewrite (split_from_app _ _ _ _ Hc).
  rewrite loop_app, H1. cbn [rbind]. exact (loop_shift _ _ _ H2).
Qed.

Lemma parse_coordinates_app_witness :
  PyStr.isspace " " = true
  /\ parse_coordinates "0,0 0,1" = Ok [(0, 0); (0, 1)]%float
  /\ parse_coordinates "1,1,5 x" = Ok [(1, 1)]%float
  /\ parse_coordinates ("0,0 0,1" ++ String " " "1,1,5 x")
     = Ok ([(0, 0); (0, 1)] ++ [(1, 1)])%float.
Proof.
  assert (h1 : PyStr.isspace " " = true) by reflexivity.
  assert (h2 : parse_coordinates "0,0 0,1" = Ok [(0, 0); (0, 1)]%float)
    by evaluate.
  assert (h3 : parse_coordinates "1,1,5 x" = Ok [(1, 1)]%float) by evaluate.
  exact (conj h1 (conj h2 (conj h3
    (parse_coordinates_app _ _ _ _ _ h1 h2 h3)))).
Defined.

(** ** The number of an annotation *)

Ltac by_chars c :=
  destruct c as [[] [] [] [] [] [] [] []];
  vm_compute in *; try reflexivity; try discriminate; auto.

Lemma point_not_underscore (c : ascii) :
  digit_or_point c = true ->
  Ascii.eqb c "_" = false /\ Ascii.eqb c "-" = false
  /\ Ascii.eqb c "+" = false /\ PyFloat.isspace c = false
  /\ Ascii.eqb (PyStr.lower_char c) "i" = false
  /\ Ascii.eqb (PyStr.lower_char c) "n" = false.
Proof. intros H. by_chars c; repeat split; reflexivity. Qed.

Lemma not_digit_is_point (c : ascii) :
  digit_or_point c = true -> PyStr.isdigit c = false -> c = "."%char.
Proof.
  unfold digit_or_point. intros H Hd. rewrite Hd in H. cbn in H.
  apply Ascii.eqb_eq. exact H.
Qed.

Lemma digit_not_point (c : ascii) :
  PyStr.isdigit c = true -> Ascii.eqb c "." = false.
Proof. intros H. by_chars c. Qed.

Lemma drop_underscores_number (s : string) :
  forall prev : option ascii,
    match prev with
    | Some d => digit_or_point d = true
    | None => True
    end ->
    PyStr.all_chars digit_or_point s = true ->
    PyFloat.drop_underscores prev s = Some s.
Proof.
  induction s as [|c s IH]; intros prev Hp Hs.
  - destruct prev as [d|]; [|reflexivity]. by_chars d.
  - cbn [PyStr.all_chars] in Hs. apply andb_prop in Hs. destruct Hs as [Hc Hs].
    assert (IH' := IH (Some c) Hc Hs).
    destruct (point_not_underscore c Hc) as [Hu _].
    destruct prev as [d|].
    + simpl PyFloat.drop_underscores. rewrite Hu.
      destruct d as [[] [] [] [] [] [] [] []];
        try (rewrite IH'; reflexivity); vm_compute in Hp; discriminate.
    + simpl PyFloat.drop_underscores. rewrite Hu, IH'. reflexivity.
Qed.

Lemma rstrip_by_none (p : ascii -> bool) (s : string) :
  PyStr.all_chars (fun c => negb (p c)) s = true -> PyStr.rstrip_by p s = s.
Proof.
  induction s as [|c s IH]; [reflexivity|].
  cbn [PyStr.all_chars PyStr.rstrip_by]. intros H.
  apply andb_prop in H. destruct H as [Hc Hs]. rewrite (IH Hs).
  apply negb_true_iff in Hc. rewrite Hc. destruct s; reflexivity.
Qed.

Lemma all_chars_impl (p q : ascii -> bool) (s : string) :
  (forall c, p c = true -> q c = true) ->
  PyStr.all_chars p s = true -> PyStr.all_chars q s = true.
Proof.
  intros Hpq. induction s as [|c s IH]; [reflexivity|].
  cbn [PyStr.all_chars]. intros H. apply andb_prop in H. destruct H as [Hc Hs].
  rewrite (Hpq _ Hc), (IH Hs). reflexivity.
Qed.

Lemma strip_number (s : string) :
  PyStr.all_chars digit_or_point s = true ->
  PyStr.strip_by PyFloat.isspace s = s.
Proof.
  intros H. unfold PyStr.strip_by.
  assert (Hl : PyStr.lstrip_by PyFloat.isspace s = s).
  { destruct s as [|c s]; [reflexivity|]. cbn [PyStr.all_chars] in H.
    apply andb_prop in H. destruct H as [Hc _].
    destruct (point_not_underscore c Hc) as (_ & _ & _ & Hsp & _).
    cbn [PyStr.lstrip_by]. rewrite Hsp. reflexivity. }
  rewrite Hl. apply rstrip_by_none.
  apply (all_chars_impl digit_or_point); [|exact H].
  intros c Hc. destruct (point_not_underscore c Hc) as (_ & _ & _ & Hsp & _).
  rewrite Hsp. reflexivity.
Qed.

Lemma take_sign_number (s : string) :
  PyStr.all_chars digit_or_point s = true -> PyFloat.take_sign s = (false, s).
Proof.
  destruct s as [|c s]; [reflexivity|]. cbn [PyStr.all_chars]. intros H.
  apply andb_prop in H. destruct H as [Hc _].
  destruct c as [[] [] [] [] [] [] [] []]; try reflexivity;
    vm_compute in Hc; discriminate.
Qed.

Lemma parse_inf_nan_number (neg : bool) (s : string) :
  PyStr.all_chars digit_or_point s = true -> PyFloat.parse_inf_nan neg s = None.
Proof.
  unfold PyFloat.parse_inf_nan.
  destruct s as [|c s]; [reflexivity|]. cbn [PyStr.all_chars]. intros H.
  apply andb_prop in H. destruct H as [Hc _].
  destruct (point_not_underscore c Hc) as (_ & _ & _ & _ & Hi & Hn).
  cbn [PyStr.lower String.eqb]. rewrite Hi, Hn. reflexivity.
Qed.

(** the digits [span_digits] takes, and what it leaves, in a number text *)
Lemma span_digits_number (s : string) :
  PyStr.all_chars digit_or_point s = true ->
  exists ip r,
    PyFloat.span_digits s = (ip, r)
    /\ has_digit s = PyStr.nonempty ip || has_digit r
    /\ count_points s = count_points r
    /\ PyStr.all_chars digit_or_point r = true
    /\ (r = EmptyString \/ exists r', r = String "." r').
Proof.
  induction s as [|c s IH]; intros H.
  - exists EmptyString, EmptyString. repeat split; auto.
  - cbn [PyStr.all_chars] in H. apply andb_prop in H. destruct H as [Hc Hs].
    cbn [PyFloat.span_digits]. destruct (PyStr.isdigit c) eqn:Hd.
    + destruct (IH Hs) as (ip & r & E & Hh & Hp & Hr & Hshape).
      rewrite E. exists (String c ip), r.
      cbn [has_digit count_points PyStr.nonempty]. rewrite Hd.
      rewrite (digit_not_point c Hd). repeat split; auto.
    + exists EmptyString, (String c s).
      cbn [PyStr.nonempty PyStr.all_chars orb]. rewrite Hc, Hs.
      repeat split; auto.
      right. exists s. rewrite (not_digit_is_point c Hc Hd). reflexivity.
Qed.

Lemma take_exponent_point (r : string) :
  PyFloat.take_exponent (String "." r) = (0%Z, String "." r).
Proof. reflexivity. Qed.

Lemma append_empty (s : string) : (s ++ EmptyString)%string = s.
Proof. induction s as [|c s IH]; [reflexivity|]. cbn. rewrite IH. reflexivity. Qed.

Lemma parse_decimal_number (neg : bool) (s : string) :
  PyStr.all_chars digit_or_point s = true ->
  match PyFloat.parse_decimal neg s with
  | Some _ => readable_number s = true
  | None => readable_number s = false
  end.
Proof.
  intros H. unfold PyFloat.parse_decimal, readable_number.
  destruct (span_digits_number s H) as (ip & r1 & E & Hh & Hp & Hr & Hshape).
  rewrite E, Hh, Hp.
  destruct Hshape as [->|[r1' ->]].
  - rewrite append_empty. destruct ip; reflexivity.
  - cbn [PyStr.all_chars] in Hr. apply andb_prop in Hr. destruct Hr as [_ Hr].
    destruct (span_digits_number r1' Hr)
      as (fp & r2 & E' & Hh' & Hp' & _ & Hshape').
    rewrite E'. cbn [has_digit count_points Ascii.eqb Bool.eqb].
    change (PyStr.isdigit ".") with false. cbn [orb].
    rewrite Hh', Hp'.
    destruct Hshape' as [->|[r2' ->]].
    + destruct ip, fp; reflexivity.
    + rewrite take_exponent_point. cbn [count_points Ascii.eqb Bool.eqb].
      rewrite andb_false_r.
      destruct (ip ++ fp)%string; reflexivity.
Qed.

(** [float] reads a text of digits and points exactly when it has a
    digit and at most one point. *)
Lemma float_of_number (s : string) :
  PyStr.all_chars digit_or_point s = true ->
  match PyFloat.of_string s with
  | Some _ => readable_number s = true
  | None => readable_number s = false
  end.
Proof.
  intros H. unfold PyFloat.of_string.
  rewrite (drop_underscores_number s None I H), (strip_number s H),
    (take_sign_number s H).
  pose proof (parse_decimal_number false s H) as Hd.
  destruct (PyFloat.parse_decimal false s); [exact Hd|].
  rewrite (parse_inf_nan_number false s H). exact Hd.
Qed.

(** X5. When the pattern matches, the parser's result hangs on the
    number text alone: with a digit and at most one point it returns the
    pair, the unit in lower case; otherwise it raises [float]'s error on
    that text. *)
Theorem annotation_number :
  forall (text number unit : string),
    Re.search true area_pattern text = Some [number; unit] ->
    if readable_number number
    then exists value,
        parse_area_from_description (Some text)
        = Ok (Some (value, PyStr.lower unit))
    else parse_area_from_description (Some text)
         = Raise (ValueError_float number).
Proof.
  intros text number unit H.
  destruct (area_pattern_groups _ _ H) as (n & u & E & _ & Hn & _).
  injection E as <- <-.
  unfold parse_area_from_description. rewrite H. cbn [nth]. unfold py_float.
  pose proof (float_of_number number Hn) as Hf.
  destruct (PyFloat.of_string number) as [value|]; rewrite Hf.
  - exists value. reflexivity.
  - reflexivity.
Qed.

Lemma annotation_number_witness :
  Re.search true area_pattern "Plot 7. Area: 12.5 Hectares, fenced"
    = Some ["12.5"; "Hectares"]
  /\ exists value,
      parse_area_from_description (Some "Plot 7. Area: 12.5 Hectares, fenced")
      = Ok (Some (value, PyStr.lower "Hectares")).
Proof.
  assert (h : Re.search true area_pattern "Plot 7. Area: 12.5 Hectares, fenced"
              = Some ["12.5"; "Hectares"]) by (vm_compute; reflexivity).
  exact (conj h (annotation_number _ _ _ h)).
Defined.

Lemma lower_char_idempotent (c : ascii) :
  PyStr.lower_char (PyStr.lower_char c) = PyStr.lower_char c.
Proof. by_chars c. Qed.

Lemma lower_idempotent (s : string) :
  PyStr.lower (PyStr.lower s) = PyStr.lower s.
Proof.
  induction s as [|c s IH]; [reflexivity|].
  cbn [PyStr.lower]. rewrite lower_char_idempotent, IH. reflexivity.
Qed.

Lemma lower_char_letter (c : ascii) :
  letter_or_space c = true ->
  lower_letter_or_space (PyStr.lower_char c) = true.
Proof. intros H. by_chars c. Qed.

Lemma lower_letters (s : string) :
  PyStr.all_chars letter_or_space s = true ->
  PyStr.all_chars lower_letter_or_space (PyStr.lower s) = true.
Proof.
  induction s as [|c s IH]; [reflexivity|].
  cbn [PyStr.all_chars PyStr.lower]. intros H.
  apply andb_prop in H. destruct H as [Hc Hs].
  rewrite (lower_char_letter c Hc), (IH Hs). reflexivity.
Qed.

Lemma lower_letter_plain (c : ascii) :
  lower_letter_or_space c = true -> plain_unit_char c = true.
Proof. intros H. by_chars c. Qed.

Lemma lower_letters_plain (s : string) :
  PyStr.all_chars lower_letter_or_space s = true ->
  PyStr.all_chars plain_unit_char s = true.
Proof.
  induction s as [|c s IH]; [reflexivity|].
  cbn [PyStr.all_chars]. intros H.
  apply andb_prop in H. destruct H as [Hc Hs].
  rewrite (lower_letter_plain c Hc), (IH Hs). reflexivity.
Qed.

(** X6. The unit of an annotation the parser returns is not empty, has
    no digit, no point and no capital letter of A to Z, and is its own
    lower-case form. *)
Theorem annotation_unit :
  forall (text : string) (value : float) (unit : string),
    parse_area_from_description (Some text) = Ok (Some (value, unit)) ->
    PyStr.nonempty unit = true
    /\ PyStr.all_chars plain_unit_char unit = true
    /\ PyStr.lower unit = unit.
Proof.
  intros text value unit H. unfold parse_area_from_description in H.
  destruct (Re.search true area_pattern text) as [groups|] eqn:E;
    [|discriminate].
  destruct (area_pattern_groups _ _ E) as (n & u & -> & _ & _ & Hu1 & Hu2).
  cbn [nth] in H. destruct (py_float n) as [v|]; cbn [rbind] in H;
    [|discriminate].
  assert (Hunit : unit = PyStr.lower u) by congruence. subst unit.
  split; [|split].
  - destruct u; [discriminate | reflexivity].
  - exact (lower_letters_plain _ (lower_letters u Hu2)).
  - apply lower_idempotent.
Qed.

Lemma annotation_unit_witness :
  parse_area_from_description (Some "AREA: 3 Sq Mi (approx.)")
    = Ok (Some (3%float, "sq mi "))
  /\ PyStr.nonempty "sq mi " = true
  /\ PyStr.all_chars plain_unit_char "sq mi " = true
  /\ PyStr.lower "sq mi " = "sq mi ".
Proof.
  assert (h : parse_area_from_description (Some "AREA: 3 Sq Mi (approx.)")
              = Ok (Some (3%float, "sq mi "))) by (vm_compute; reflexivity).
  exact (conj h (annotation_unit _ _ _ h)).
Defined.

(** X7. The normalizer ignores the case of the unit: a unit and its
    lower-case form convert alike, so lowering the unit once more, as
    the pipeline does after the annotation parser, changes nothing. *)
Theorem convert_to_acres_lower :
  forall (value : float) (unit : string),
    convert_to_acres value (PyStr.lower unit) = convert_to_acres value unit.
Proof.
  intros value unit. unfold convert_to_acres.
  rewrite lower_idempotent. reflexivity.
Qed.

Lemma convert_to_acres_alias (value : float) (unit : string) (acres : float) :
  convert_to_acres value unit = Ok acres ->
  In (PyStr.lower unit) (map fst unit_table).
Proof.
  unfold convert_to_acres, str_in. cbn [existsb].
  generalize (PyStr.lower unit); intros u.
  repeat (case_eqb;
          [match goal with
           | H : String.eqb _ _ = true |- _ =>
               apply String.eqb_eq in H; subst u
           end;
           intros _; cbn; repeat ((left; reflexivity) || right)|]).
  intros H. discriminate H.
Qed.

Lemma lower_char_space (c : ascii) :
  PyStr.isspace (PyStr.lower_char c) = PyStr.isspace c.
Proof. by_chars c. Qed.

Lemma first_char_lower (s : string) :
  PyStr.outside PyStr.isspace (PyStr.first_char (PyStr.lower s)) ->
  PyStr.outside PyStr.isspace (PyStr.first_char s).
Proof.
  destruct s as [|c s]; [auto|]. cbn. rewrite lower_char_space. auto.
Qed.

Lemma last_char_lower (s : string) :
  PyStr.outside PyStr.isspace (PyStr.last_char (PyStr.lower s)) ->
  PyStr.outside PyStr.isspace (PyStr.last_char s).
Proof.
  induction s as [|c s IH]; [auto|].
  destruct s as [|d s].
  - cbn. rewrite lower_char_space. auto.
  - exact IH.
Qed.

Lemma rstrip_by_last (p : ascii -> bool) (s : string) :
  PyStr.outside p (PyStr.last_char s) -> PyStr.rstrip_by p s = s.
Proof.
  induction s as [|c s IH]; [reflexivity|].
  destruct s as [|d s].
  - unfold PyStr.outside. cbn. intros H. rewrite H. reflexivity.
  - intros H.
    change (PyStr.rstrip_by p (String c (String d s)))
      with (match PyStr.rstrip_by p (String d s) with
            | EmptyString => if p c then EmptyString else String c EmptyString
            | String a t => String c (String a t)
            end).
    rewrite (IH H). reflexivity.
Qed.

Lemma lstrip_by_first (p : ascii -> bool) (s : string) :
  PyStr.outside p (PyStr.first_char s) -> PyStr.lstrip_by p s = s.
Proof.
  destruct s as [|c s]; [reflexivity|].
  unfold PyStr.outside. cbn. intros H. rewrite H. reflexivity.
Qed.

(** X8. The normalizer does not trim: a unit it converts has no white
    space at either end.  So an annotation whose unit words are followed
    by white space before the text goes on, such as
    [Area: 5 acres (surveyed)], is never converted. *)
Theorem convert_to_acres_untrimmed :
  forall (value : float) (unit : string) (acres : float),
    convert_to_acres value unit = Ok acres ->
    PyStr.strip unit = unit.
Proof.
  intros value unit acres H. apply convert_to_acres_alias in H.
  assert (Hends : PyStr.outside PyStr.isspace (PyStr.first_char (PyStr.lower unit))
                  /\ PyStr.outside PyStr.isspace (PyStr.last_char (PyStr.lower unit))).
  { cbn in H.
    repeat (destruct H as [<-|H]; [split; reflexivity|]). destruct H. }
  destruct Hends as [Hf Hl].
  apply first_char_lower in Hf. apply last_char_lower in Hl.
  unfold PyStr.strip, PyStr.strip_by.
  rewrite (lstrip_by_first _ _ Hf). exact (rstrip_by_last _ _ Hl).
Qed.

Lemma convert_to_acres_untrimmed_witness :
  convert_to_acres 2 "Sq Km" = Ok 494.21%float
  /\ PyStr.strip "Sq Km" = "Sq Km".
Proof.
  assert (h : convert_to_acres 2 "Sq Km" = Ok 494.21%float)
    by (vm_compute; reflexivity).
  exact (conj h (convert_to_acres_untrimmed _ _ _ h)).
Defined.

(** the annotation of the comment above falls back to the geometry *)
Lemma trailing_space_not_converted :
  parse_area_from_description (Some "Area: 5 acres (surveyed)")
    = Ok (Some (5%float, "acres "))
  /\ convert_to_acres 5 "acres " = Raise (ValueError_unit "acres ").
Proof. split; vm_compute; reflexivity. Qed.

(** ** extract_polygon_coords *)

Lemma parse_interiors_rings (inner_rings : list element) :
  forall interiors : list ring,
    parse_interiors inner_rings = Ok interiors ->
    Forall2 ring_of (filter has_text inner_rings) interiors.
Proof.
  induction inner_rings as [|inner rest IH]; intros interiors H;
    cbn [parse_interiors] in H.
  - injection H as <-. constructor.
  - cbn [filter]. unfold has_text at 1.
    destruct (ET.text inner) as [t|] eqn:Et; [|exact (IH _ H)].
    destruct (PyStr.nonempty t); [|exact (IH _ H)].
    destruct (parse_coordinates t) as [r|] eqn:Er; cbn [rbind] in H;
      [|discriminate].
    destruct (parse_interiors rest) as [rs|]; cbn [rbind] in H;
      [|discriminate].
    injection H as <-. constructor; [|exact (IH _ eq_refl)].
    exists t. auto.
Qed.

(** X9. What [extract_polygon_coords] returns with an exterior: the
    exterior is the parse of the first outer-boundary coordinate text,
    and the holes are the parses, in document order, of the
    inner-boundary coordinate texts that are not empty; an inner
    boundary without text adds no hole. *)
Theorem extract_polygon_coords_rings :
  forall (polygon_el : element) (exterior : ring) (interiors : list ring),
    extract_polygon_coords polygon_el = Ok (Some exterior, interiors) ->
    (exists outer_ring,
        ET.find_path outer_path polygon_el = Some outer_ring
        /\ ring_of outer_ring exterior)
    /\ Forall2 ring_of
         (filter has_text (ET.findall_path inner_path polygon_el)) interiors.
Proof.
  intros polygon_el exterior interiors H. unfold extract_polygon_coords in H.
  destruct (ET.find_path outer_path polygon_el) as [outer_ring|];
    [|discriminate].
  unfold parse_coordinates_of in H.
  destruct (ET.text outer_ring) as [t|] eqn:Et; [|discriminate].
  destruct (parse_coordinates t) as [ext|] eqn:Ep; cbn [rbind] in H;
    [|discriminate].
  destruct (parse_interiors (ET.findall_path inner_path polygon_el))
    as [ints|] eqn:Ei; cbn [rbind] in H; [|discriminate].
  assert (ext = exterior) by congruence. assert (ints = interiors) by congruence.
  subst. split.
  - exists outer_ring. split; [reflexivity|]. exists t. auto.
  - exact (parse_interiors_rings _ _ Ei).
Qed.

(** ** The loop of main *)

Lemma tbind_tret {A B : Type} (a : A) (f : A -> traced B) :
  tbind (tret a) f = f a.
Proof. unfold tbind, tret. destruct (f a). reflexivity. Qed.

Lemma tbind_ext {A B : Type} (m : traced A) (f g : A -> traced B) :
  (forall a, f a = g a) -> tbind m f = tbind m g.
Proof.
  intros H. destruct m as [tr [a|e]]; [|reflexivity].
  unfold tbind. rewrite H. reflexivity.
Qed.

Lemma tbind_assoc {A B C : Type} (m : traced A)
    (f : A -> traced B) (g : B -> traced C) :
  tbind (tbind m f) g = tbind m (fun a => tbind (f a) g).
Proof.
  destruct m as [tr [a|e]]; [|reflexivity].
  unfold tbind. destruct (f a) as [tr1 [b|e1]].
  - destruct (g b) as [tr2 r]. rewrite app_assoc. reflexivity.
  - reflexivity.
Qed.

Lemma geometry_calls_app (tr1 tr2 : list event) :
  geometry_calls (tr1 ++ tr2) = geometry_calls tr1 ++ geometry_calls tr2.
Proof.
  induction tr1 as [|[m|ext ints] tr1 IH]; cbn; [reflexivity | exact IH|].
  rewrite IH. reflexivity.
Qed.

Section LoopFacts.

Variable projected_area : ring -> list ring -> result float.
Variable py_sum : list float -> float.
Variable csv_path : string.

Lemma main_loop_app (pms1 : list element) :
  forall (pms2 : list element) (results : list (string * float)),
    main_loop projected_area results (pms1 ++ pms2)
    = (results' <~ main_loop projected_area results pms1 ;;
       main_loop projected_area results' pms2).
Proof.
  induction pms1 as [|pm pms1 IH]; intros pms2 results.
  - cbn [app main_loop]. rewrite tbind_tret. reflexivity.
  - cbn [app main_loop]. rewrite tbind_assoc. apply tbind_ext.
    intros row. apply IH.
Qed.

(** X10. A placemark without polygon is passed over before its name or
    description is read: whatever it holds, putting it anywhere among
    the placemarks changes neither the results nor the log. *)
Theorem placemark_without_polygon_ignored :
  forall (pms1 pms2 : list element) (pm : element)
         (results : list (string * float)),
    ET.find_descendant (ET.kml "Polygon") pm = None ->
    main_loop projected_area results (pms1 ++ pm :: pms2)
    = main_loop projected_area results (pms1 ++ pms2).
Proof.
  intros pms1 pms2 pm results H. rewrite !main_loop_app.
  apply tbind_ext. intros r. cbn [main_loop].
  unfold main_placemark. rewrite H, tbind_tret. reflexivity.
Qed.

(** X11. A placemark with a polygon whose name element, or whose
    description element, has no text ends the whole run with an uncaught
    exception, and no report is written. *)
Theorem textless_field_is_fatal :
  forall (root pm polygon field : element),
    In pm (ET.findall_descendants (ET.kml "Placemark") root) ->
    ET.find_descendant (ET.kml "Polygon") pm = Some polygon ->
    ET.find_path [ET.kml "name"] pm = Some field
    \/ ET.find_path [ET.kml "description"] pm = Some field ->
    ET.text field = None ->
    exists e,
      status (main projected_area py_sum csv_path root) = Uncaught e
      /\ csv (main projected_area py_sum csv_path root) = None.
Proof.
  intros root pm polygon field Hin Hp Hf Ht.
  apply main_uncaught. apply (main_loop_raises _ _ [] pm Hin).
  unfold main_placemark. rewrite Hp.
  destruct Hf as [Hf|Hf].
  - unfold placemark_name. rewrite Hf, Ht, tbind_lift_raise. eauto.
  - destruct (placemark_name pm) as [name|e].
    + rewrite tbind_lift_ok. unfold placemark_description.
      rewrite Hf, Ht. cbn [parse_area_from_description].
      rewrite tbind_lift_raise. eauto.
    + rewrite tbind_lift_raise. eauto.
Qed.

Lemma hd_error_app {A : Type} (l1 l2 : list A) (a : A) :
  hd_error l1 = Some a -> hd_error (l1 ++ l2) = Some a.
Proof. destruct l1; [discriminate | exact (fun H => H)]. Qed.

Lemma find_child_app (t tag : string) (text : option string)
    (children : list element) (extra : element) :
  ET.has_tag t extra = false ->
  ET.find_path [t] (Element tag text (children ++ [extra]))
  = ET.find_path [t] (Element tag text children).
Proof.
  intros H. unfold ET.find_path. cbn [ET.findall_path].
  unfold ET.step_child. cbn [ET.children].
  rewrite filter_app. cbn [filter]. rewrite H, app_nil_r. reflexivity.
Qed.

(** X12. Only the first polygon of a placemark counts: once a placemark
    holds a polygon, a further child after the others, be it a second
    polygon, changes nothing, unless it is a name or a description. *)
Theorem later_child_ignored :
  forall (tag : string) (text : option string) (children : list element)
         (extra polygon : element),
    ET.find_descendant (ET.kml "Polygon") (Element tag text children)
      = Some polygon ->
    ET.has_tag (ET.kml "name") extra = false ->
    ET.has_tag (ET.kml "description") extra = false ->
    main_placemark projected_area (Element tag text (children ++ [extra]))
    = main_placemark projected_area (Element tag text children).
Proof.
  intros tag text children extra polygon Hp Hn Hd.
  unfold main_placemark, placemark_name, placemark_description.
  rewrite (find_child_app _ _ _ _ _ Hn), (find_child_app _ _ _ _ _ Hd).
  assert (Hp' : ET.find_descendant (ET.kml "Polygon")
                  (Element tag text (children ++ [extra])) = Some polygon).
  { unfold ET.find_descendant, ET.findall_descendants in *.
    cbn [ET.children] in *. rewrite flat_map_app, filter_app.
    apply hd_error_app. exact Hp. }
  rewrite Hp, Hp'. reflexivity.
Qed.

(** X13. The loop keeps the order of the document: when it ends
    without exception, its results are the rows of the placemarks that
    gave one, in placemark order, and its log is their traces in that
    order. *)
Theorem main_loop_in_order :
  forall (pms : list element) (results : list (string * float))
         (tr : list event) (out : list (string * float)),
    main_loop projected_area results pms = (tr, Ok out) ->
    exists outcomes,
      Forall2 (fun pm o => main_placemark projected_area pm
                           = (fst o, Ok (snd o))) pms outcomes
      /\ tr = List.concat (map fst outcomes)
      /\ out = results ++ rows_of outcomes.
Proof.
  induction pms as [|pm pms IH]; intros results tr out H;
    cbn [main_loop] in H.
  - exists []. unfold tret in H.
    assert (tr = []) by congruence. assert (out = results) by congruence.
    subst. rewrite app_nil_r. repeat split. constructor.
  - destruct (main_placemark projected_area pm) as [tr1 [row|e]] eqn:E;
      [|discriminate].
    unfold tbind in H.
    destruct (main_loop projected_area
                (match row with
                 | Some r => results ++ [r]
                 | None => results
                 end) pms) as [tr2 r2] eqn:E2.
    assert (Htr : tr = tr1 ++ tr2) by congruence.
    assert (Hr : r2 = Ok out) by congruence.
    subst tr r2.
    destruct (IH _ _ _ E2) as (outcomes & Hall & Htr2 & Hout).
    exists ((tr1, row) :: outcomes). split; [|split].
    + constructor; [exact E | exact Hall].
    + cbn. rewrite Htr2. reflexivity.
    + rewrite Hout. unfold rows_of. cbn [flat_map snd].
      destruct row; [rewrite <- app_assoc|]; reflexivity.
Qed.

End LoopFacts.

Section RunFacts.

Variable projected_area : ring -> list ring -> result float.
Variable py_sum : list float -> float.
Variable csv_path : string.

(** what one placemark hands to the geometry libraries: nothing, or one
    polygon with a non-empty exterior *)
Lemma main_placemark_geometry (pm : element) :
  geometry_calls (fst (main_placemark projected_area pm)) = []
  \/ exists p ps interiors,
      geometry_calls (fst (main_placemark projected_area pm))
      = [(p :: ps, interiors)].
Proof.
  unfold main_placemark.
  destruct (ET.find_descendant (ET.kml "Polygon") pm) as [polygon|];
    [|left; reflexivity].
  destruct (placemark_name pm) as [name|e]; [|left; reflexivity].
  rewrite tbind_lift_ok.
  destruct (parse_area_from_description (placemark_description pm))
    as [area_info|e]; [|left; reflexivity].
  rewrite tbind_lift_ok.
  destruct (extract_polygon_coords polygon) as [[exterior interiors]|e];
    [|left; reflexivity].
  rewrite tbind_lift_ok.
  destruct exterior as [[|p ps]|]; cbn [usable]; try (left; reflexivity).
  assert (Hcalc :
    forall pre,
      geometry_calls
        (fst (area_acres <~ (let '(tr, r) :=
                               calculated_acres projected_area (p :: ps) interiors
                             in (pre ++ tr, r)) ;;
              tret (Some (name, area_acres))))
      = geometry_calls pre ++ [(p :: ps, interiors)]).
  { intros pre. rewrite calculated_acres_eq.
    destruct (projected_area (p :: ps) interiors); cbn [rbind tbind tret fst];
      rewrite ?app_nil_r, geometry_calls_app; reflexivity. }
  unfold determine_area.
  destruct area_info as [[value unit]|].
  - destruct (convert_to_acres value unit) as [a|e] eqn:Ec.
    + left. reflexivity.
    + apply convert_to_acres_raises in Ec. subst e. cbn [is_ValueError].
      right. exists p, ps, interiors.
      exact (Hcalc [LogWarning (unknown_unit_warning unit name)]).
  - right. exists p, ps, interiors.
    pose proof (Hcalc []) as H. cbn [app geometry_calls] in H.
    destruct (calculated_acres projected_area (p :: ps) interiors).
    exact H.
Qed.

Lemma main_loop_geometry (pms : list element) :
  forall results : list (string * float),
    Forall (fun call => fst call <> [])
      (geometry_calls (fst (main_loop projected_area results pms)))
    /\ (List.length (geometry_calls (fst (main_loop projected_area results pms)))
        <= List.length pms)%nat.
Proof.
  induction pms as [|pm pms IH]; intros results.
  - split; [constructor | apply le_n].
  - cbn [main_loop List.length].
    pose proof (main_placemark_geometry pm) as Hpm.
    destruct (main_placemark projected_area pm) as [tr1 [row|e]];
      cbn [fst] in Hpm.
    + unfold tbind.
      specialize (IH (match row with
                      | Some r => results ++ [r]
                      | None => results
                      end)).
      destruct (main_loop projected_area _ pms) as [tr2 r2]. cbn [fst] in *.
      rewrite geometry_calls_app, length_app. destruct IH as [IH1 IH2].
      destruct Hpm as [->|(p & ps & ints & ->)]; cbn [app List.length].
      * split; [exact IH1 | lia].
      * split; [constructor; [discriminate | exact IH1] | lia].
    + cbn [tbind fst].
      destruct Hpm as [->|(p & ps & ints & ->)]; cbn [List.length].
      * split; [constructor | lia].
      * split; [repeat constructor; discriminate | lia].
Qed.

Lemma main_log (root : element) :
  log (main projected_area py_sum csv_path root)
  = fst (main_loop projected_area []
           (ET.findall_descendants (ET.kml "Placemark") root)).
Proof.
  unfold main.
  destruct (main_loop projected_area []
              (ET.findall_descendants (ET.kml "Placemark") root))
    as [tr [[|r rs]|e]]; reflexivity.
Qed.

(** X14. In every run, each polygon handed to the geometry libraries has
    an exterior ring of at least one point, and no more polygons are
    handed over than the document has placemarks. *)
Theorem geometry_calls_of_a_run :
  forall root : element,
    Forall (fun call => fst call <> [])
      (geometry_calls (log (main projected_area py_sum csv_path root)))
    /\ (List.length
          (geometry_calls (log (main projected_area py_sum csv_path root)))
        <= List.length (ET.findall_descendants (ET.kml "Placemark") root))%nat.
Proof. intros root. rewrite main_log. apply main_loop_geometry. Qed.

Lemma write_rows_width (total : float) (results : list (string * float)) :
  forall first : bool,
    Forall (fun row => List.length row = 3%nat)
      (write_rows total first results).
Proof.
  induction results as [|[name area] results IH]; intros first;
    cbn [write_rows]; constructor.
  - destruct first; reflexivity.
  - apply IH.
Qed.

(** X15. A run that returns normally has handed the report writer the
    header and at least one data row, every row of three fields: the
    rows it hands over are never the header alone.  (Whether the
    writer can encode them is outside the model.) *)
Theorem returned_run_rows :
  forall root : element,
    status (main projected_area py_sum csv_path root) = Returned ->
    exists rows,
      csv (main projected_area py_sum csv_path root) = Some rows
      /\ hd_error rows = Some ["Polygon Name"; "Total Acreage"; "Total"]
      /\ (2 <= List.length rows)%nat
      /\ Forall (fun row => List.length row = 3%nat) rows.
Proof.
  intros root. unfold main.
  destruct (main_loop projected_area []
              (ET.findall_descendants (ET.kml "Placemark") root))
    as [tr [[|r rs]|e]]; cbn [csv status]; try discriminate.
  intros _. eexists. split; [reflexivity|]. unfold write_report.
  split; [reflexivity|]. split.
  - cbn [List.length]. rewrite write_rows_length. cbn [List.length]. lia.
  - constructor; [reflexivity | apply write_rows_width].
Qed.

(** X16. The geometric path and the normalizer agree on square meters:
    the acres computed from a projected area are what the normalizer
    gives for that many square meters, under each of its aliases. *)
Theorem geometric_path_matches_square_meters :
  forall (exterior : ring) (interiors : list ring) (unit : string),
    In (PyStr.lower unit)
       ["sq m"; "square meters"; "square metres"; "sq meter"; "sq metre"] ->
    snd (calculated_acres projected_area exterior interiors)
    = (area_m2 <- projected_area exterior interiors ;;
       convert_to_acres area_m2 unit).
Proof.
  intros exterior interiors unit H. rewrite calculated_acres_eq. cbn [snd].
  destruct (projected_area exterior interiors) as [m2|e]; [|reflexivity].
  cbn [rbind]. unfold convert_to_acres.
  cbn [In] in H.
  repeat (destruct H as [<-|H]; [reflexivity|]). destruct H.
Qed.

End RunFacts.

(** ** The archive *)

Lemma first_kml_some (names : list string) (name : string) :
  first_kml names = Some name -> In name names /\ is_kml_name name = true.
Proof.
  induction names as [|n names IH]; cbn [first_kml]; [discriminate|].
  destruct (is_kml_name n) eqn:E.
  - intros H. injection H as <-. split; [left; reflexivity | exact E].
  - intros H. destruct (IH H). split; [right|]; assumption.
Qed.

Lemma first_kml_none (names : list string) :
  first_kml names = None <-> forallb (fun n => negb (is_kml_name n)) names = true.
Proof.
  induction names as [|n names IH]; cbn [first_kml forallb]; [tauto|].
  destruct (is_kml_name n); cbn [negb andb]; [|exact IH].
  split; discriminate.
Qed.

Lemma last_in {A : Type} (l : list A) (d : A) :
  l <> [] -> In (last l d) l.
Proof.
  induction l as [|a l IH]; [congruence|]. intros _.
  destruct l as [|b l]; [left; reflexivity|].
  right. apply IH. discriminate.
Qed.

Lemma read_listed (z : archive) (name : string) :
  In name (Zip.namelist z) -> In (name, Zip.read z name) z.
Proof.
  intros H. unfold Zip.read.
  assert (Hne : map snd (filter (Zip.named name) z) <> []).
  { unfold Zip.namelist in H. apply in_map_iff in H.
    destruct H as ([n data] & Hn & Hin). cbn in Hn. subst n.
    assert (Hf : In (name, data) (filter (Zip.named name) z)).
    { apply filter_In. split; [exact Hin|]. apply String.eqb_refl. }
    destruct (filter (Zip.named name) z); [destruct Hf | discriminate]. }
  pose proof (last_in _ (Failed "KeyError") Hne) as Hl.
  apply in_map_iff in Hl. destruct Hl as ([n data] & Hd & Hin).
  apply filter_In in Hin. destruct Hin as [Hin Hn].
  unfold Zip.named in Hn. cbn in Hn, Hd. apply String.eqb_eq in Hn.
  subst n. rewrite <- Hd. exact Hin.
Qed.

Section ScriptFacts.

Variable open_zip : string -> io archive.
Variable is_file : string -> bool.
Variable read_file : string -> io string.
Variable fromstring : string -> parsed.
Variable projected_area : ring -> list ring -> result float.
Variable py_sum : list float -> float.
Variable csv_path : string.

(** X17. What [_extract_kml_from_kmz] returns is what reading an entry
    of the archive gave, and that entry's name ends in [.kml] in some
    case: the content of another entry is never returned. *)
Theorem extracted_from_kml_entry :
  forall (kmz_path kml_data : string),
    _extract_kml_from_kmz open_zip kmz_path = Done kml_data ->
    exists z name,
      open_zip kmz_path = Done z
      /\ In (name, Done kml_data) z
      /\ endswith (PyStr.lower name) ".kml" = true.
Proof.
  intros kmz_path kml_data H. unfold _extract_kml_from_kmz in H.
  destruct (open_zip kmz_path) as [z|m]; [|discriminate].
  destruct (first_kml (Zip.namelist z)) as [name|] eqn:E; [|discriminate].
  destruct (first_kml_some _ _ E) as [Hin Hk].
  exists z, name. split; [reflexivity|]. split; [|exact Hk].
  rewrite <- H. exact (read_listed z name Hin).
Qed.

(** X18. A path ending in [.kmz], in any case, whose archive has no
    entry named [*.kml] stops the run before anything is parsed: the
    error is logged, the user is pointed to the log, and the exit code
    is 1. *)
Theorem archive_without_kml_stops :
  forall (script input_path : string) (z : archive),
    is_file input_path = true ->
    endswith (PyStr.lower input_path) ".kmz" = true ->
    open_zip input_path = Done z ->
    forallb (fun n => negb (is_kml_name n)) (Zip.namelist z) = true ->
    main_script open_zip is_file read_file fromstring
      projected_area py_sum csv_path [script; input_path]
    = Stopped "Error extracting KML from KMZ. See log for details."
        (Some "Failed to extract KML from KMZ: No KML file found inside KMZ")
        1.
Proof.
  intros script input_path z Hf He Hz Hn.
  apply first_kml_none in Hn.
  unfold main_script. cbn [List.length Nat.eqb negb nth].
  rewrite Hf, He. cbn [negb]. unfold _extract_kml_from_kmz.
  rewrite Hz, Hn. reflexivity.
Qed.

Lemma endswith_unique (s a b : string) :
  String.length a = String.length b ->
  endswith s a = true -> endswith s b = true -> a = b.
Proof.
  unfold endswith. intros Hl Ha Hb. rewrite Hl in Ha.
  apply String.eqb_eq in Ha, Hb. congruence.
Qed.

(** X19. An archive and a plain file are read alike: a [.kmz] path
    whose first [.kml] entry reads as some bytes, and a [.kml] path
    whose file reads as the same bytes, end the same way. *)
Theorem kmz_like_kml :
  forall (script1 script2 kmz_path kml_path name kml_data : string)
         (z : archive),
    is_file kmz_path = true ->
    is_file kml_path = true ->
    endswith (PyStr.lower kmz_path) ".kmz" = true ->
    endswith (PyStr.lower kml_path) ".kml" = true ->
    open_zip kmz_path = Done z ->
    first_kml (Zip.namelist z) = Some name ->
    Zip.read z name = Done kml_data ->
    read_file kml_path = Done kml_data ->
    main_script open_zip is_file read_file fromstring
      projected_area py_sum csv_path [script1; kmz_path]
    = main_script open_zip is_file read_file fromstring
        projected_area py_sum csv_path [script2; kml_path].
Proof.
  intros script1 script2 kmz_path kml_path name kml_data z
    Hf1 Hf2 He1 He2 Hz Hk Hr Hread.
  unfold main_script. cbn [List.length Nat.eqb negb nth].
  rewrite Hf1, Hf2, He1, He2. cbn [negb].
  destruct (endswith (PyStr.lower kml_path) ".kmz") eqn:E.
  - assert (Habs : ".kmz" = ".kml")
      by exact (endswith_unique (PyStr.lower kml_path) ".kmz" ".kml"
                  eq_refl E He2).
    discriminate Habs.
  - unfold _extract_kml_from_kmz. rewrite Hz, Hk, Hr, Hread. reflexivity.
Qed.

End ScriptFacts.

Lemma filter_named_kml (z : archive) (name : string) :
  is_kml_name name = true ->
  filter (Zip.named name) (filter (fun entry => is_kml_name (fst entry)) z)
  = filter (Zip.named name) z.
Proof.
  intros Hk. induction z as [|[n data] z IH]; [reflexivity|].
  cbn [filter fst]. destruct (is_kml_name n) eqn:En.
  - cbn [filter]. rewrite IH. reflexivity.
  - rewrite IH. unfold Zip.named at 2. cbn [fst].
    destruct (String.eqb n name) eqn:E; [|reflexivity].
    apply String.eqb_eq in E. congruence.
Qed.

Lemma first_kml_filter (z : archive) :
  first_kml (Zip.namelist (filter (fun entry => is_kml_name (fst entry)) z))
  = first_kml (Zip.namelist z).
Proof.
  induction z as [|[n data] z IH]; [reflexivity|].
  cbn [filter fst]. destruct (is_kml_name n) eqn:En.
  - cbn [Zip.namelist map fst first_kml]. rewrite En. reflexivity.
  - cbn [Zip.namelist map fst first_kml]. rewrite En. exact IH.
Qed.

(** X20. The entries of an archive that are not named [*.kml] have no
    part in the extraction: without them it gives the same bytes, or
    fails the same way. *)
Theorem other_entries_ignored :
  forall (open_zip1 open_zip2 : string -> io archive) (kmz_path : string)
         (z : archive),
    open_zip1 kmz_path = Done z ->
    open_zip2 kmz_path
      = Done (filter (fun entry => is_kml_name (fst entry)) z) ->
    _extract_kml_from_kmz open_zip1 kmz_path
    = _extract_kml_from_kmz open_zip2 kmz_path.
Proof.
  intros open_zip1 open_zip2 kmz_path z H1 H2.
  unfold _extract_kml_from_kmz. rewrite H1, H2, first_kml_filter.
  destruct (first_kml (Zip.namelist z)) as [name|] eqn:E; [|reflexivity].
  destruct (first_kml_some _ _ E) as [_ Hk].
  unfold Zip.read. rewrite (filter_named_kml z name Hk). reflexivity.
Qed.

Lemma first_kml_app (names1 names2 : list string) :
  first_kml names1 = None ->
  first_kml (names1 ++ names2) = first_kml names2.
Proof.
  induction names1 as [|n names1 IH]; [reflexivity|].
  cbn [app first_kml]. destruct (is_kml_name n); [discriminate | exact IH].
Qed.

Lemma filter_named_none (z : archive) (name : string) :
  str_in name (Zip.namelist z) = false -> filter (Zip.named name) z = [].
Proof.
  unfold str_in. induction z as [|[n data] z IH]; [reflexivity|].
  cbn [Zip.namelist map fst existsb filter]. intros H.
  apply orb_false_iff in H. destruct H as [Hn Hz].
  unfold Zip.named at 1. cbn [fst]. rewrite String.eqb_sym, Hn.
  exact (IH Hz).
Qed.

Lemma not_kml_not_named (z : archive) (name : string) :
  is_kml_name name = true ->
  forallb (fun n => negb (is_kml_name n)) (Zip.namelist z) = true ->
  str_in name (Zip.namelist z) = false.
Proof.
  intros Hk. unfold str_in, Zip.namelist.
  induction z as [|[n data] z IH]; [reflexivity|].
  cbn [map fst forallb existsb]. intros H.
  apply andb_prop in H. destruct H as [Hn Hz]. rewrite (IH Hz), orb_false_r.
  destruct (String.eqb name n) eqn:E; [|reflexivity].
  apply String.eqb_eq in E. subst n. rewrite Hk in Hn. discriminate.
Qed.

(** X21. Of several documents in an archive the first wins: when the
    entries before one named [*.kml] are not so named, and no later
    entry has its name, the extraction gives what reading that entry
    gives, whatever follows it. *)
Theorem first_kml_entry_wins :
  forall (open_zip : string -> io archive) (kmz_path : string)
         (before later : archive) (name : string) (data : io string),
    open_zip kmz_path = Done (before ++ (name, data) :: later) ->
    forallb (fun n => negb (is_kml_name n)) (Zip.namelist before) = true ->
    is_kml_name name = true ->
    str_in name (Zip.namelist later) = false ->
    _extract_kml_from_kmz open_zip kmz_path = data.
Proof.
  intros open_zip kmz_path before later name data Hz Hb Hk Hl.
  unfold _extract_kml_from_kmz. rewrite Hz.
  unfold Zip.namelist. rewrite map_app.
  rewrite (first_kml_app _ _ (proj2 (first_kml_none _) Hb)).
  cbn [map fst first_kml]. rewrite Hk.
  unfold Zip.read. rewrite filter_app. cbn [filter].
  unfold Zip.named at 2. cbn [fst]. rewrite String.eqb_refl.
  rewrite (filter_named_none before name (not_kml_not_named _ _ Hk Hb)).
  rewrite (filter_named_none later name Hl). reflexivity.
Qed.

(** * The further properties on sample documents *)

Lemma first_kml_entry_wins_witness :
  Demo.open_zip "fields.kmz"
    = Done ([("readme.txt", Done "notes")]
            ++ ("Doc.KML", Done Demo.kml_bytes)
               :: [("icons/pin.png", Failed "Bad CRC-32 for file 'icons/pin.png'");
                   ("extra.kml", Done "<kml/>")])
  /\ forallb (fun n => negb (is_kml_name n))
       (Zip.namelist [("readme.txt", Done "notes")]) = true
  /\ is_kml_name "Doc.KML" = true
  /\ str_in "Doc.KML"
       (Zip.namelist
          [("icons/pin.png", Failed "Bad CRC-32 for file 'icons/pin.png'");
           ("extra.kml", Done "<kml/>")]) = false
  /\ _extract_kml_from_kmz Demo.open_zip "fields.kmz" = Done Demo.kml_bytes.
Proof.
  assert (h1 : Demo.open_zip "fields.kmz"
    = Done ([("readme.txt", Done "notes")]
            ++ ("Doc.KML", Done Demo.kml_bytes)
               :: [("icons/pin.png", Failed "Bad CRC-32 for file 'icons/pin.png'");
                   ("extra.kml", Done "<kml/>")])) by reflexivity.
  assert (h2 : forallb (fun n => negb (is_kml_name n))
                 (Zip.namelist [("readme.txt", Done "notes")]) = true)
    by evaluate.
  assert (h3 : is_kml_name "Doc.KML" = true) by evaluate.
  assert (h4 : str_in "Doc.KML"
                 (Zip.namelist
                    [("icons/pin.png", Failed "Bad CRC-32 for file 'icons/pin.png'");
                     ("extra.kml", Done "<kml/>")]) = false) by evaluate.
  exact (conj h1 (conj h2 (conj h3 (conj h4
    (first_kml_entry_wins _ _ _ _ _ _ h1 h2 h3 h4))))).
Defined.

Lemma extracted_from_kml_entry_witness :
  _extract_kml_from_kmz Demo.open_zip "fields.kmz" = Done Demo.kml_bytes
  /\ exists z name,
      Demo.open_zip "fields.kmz" = Done z
      /\ In (name, Done Demo.kml_bytes) z
      /\ endswith (PyStr.lower name) ".kml" = true.
Proof.
  assert (h : _extract_kml_from_kmz Demo.open_zip "fields.kmz"
              = Done Demo.kml_bytes) by evaluate.
  exact (conj h (extracted_from_kml_entry Demo.open_zip _ _ h)).
Defined.

Lemma archive_without_kml_stops_witness :
  Demo.is_file "Notes.KMZ" = true
  /\ endswith (PyStr.lower "Notes.KMZ") ".kmz" = true
  /\ Demo.open_zip "Notes.KMZ" = Done Demo.notes_only
  /\ forallb (fun n => negb (is_kml_name n)) (Zip.namelist Demo.notes_only)
     = true
  /\ Demo.run_script ["parse_polygons_to_csv.py"; "Notes.KMZ"]
     = Stopped "Error extracting KML from KMZ. See log for details."
         (Some "Failed to extract KML from KMZ: No KML file found inside KMZ")
         1.
Proof.
  assert (h1 : Demo.is_file "Notes.KMZ" = true) by evaluate.
  assert (h2 : endswith (PyStr.lower "Notes.KMZ") ".kmz" = true) by evaluate.
  assert (h3 : Demo.open_zip "Notes.KMZ" = Done Demo.notes_only) by evaluate.
  assert (h4 : forallb (fun n => negb (is_kml_name n))
                 (Zip.namelist Demo.notes_only) = true) by evaluate.
  exact (conj h1 (conj h2 (conj h3 (conj h4
    (archive_without_kml_stops Demo.open_zip Demo.is_file Demo.read_file
       Demo.fromstring Sample.planar_area Sample.add_all "polygon_areas.csv"
       _ _ _ h1 h2 h3 h4))))).
Defined.

Lemma kmz_like_kml_witness :
  Demo.is_file "fields.kmz" = true
  /\ Demo.is_file "fields.kml" = true
  /\ endswith (PyStr.lower "fields.kmz") ".kmz" = true
  /\ endswith (PyStr.lower "fields.kml") ".kml" = true
  /\ Demo.open_zip "fields.kmz" = Done Demo.bundle
  /\ first_kml (Zip.namelist Demo.bundle) = Some "Doc.KML"
  /\ Zip.read Demo.bundle "Doc.KML" = Done Demo.kml_bytes
  /\ Demo.read_file "fields.kml" = Done Demo.kml_bytes
  /\ Demo.run_script ["parse_polygons_to_csv.py"; "fields.kmz"]
     = Demo.run_script ["parse_polygons_to_csv.py"; "fields.kml"].
Proof.
  assert (h1 : Demo.is_file "fields.kmz" = true) by evaluate.
  assert (h2 : Demo.is_file "fields.kml" = true) by evaluate.
  assert (h3 : endswith (PyStr.lower "fields.kmz") ".kmz" = true) by evaluate.
  assert (h4 : endswith (PyStr.lower "fields.kml") ".kml" = true) by evaluate.
  assert (h5 : Demo.open_zip "fields.kmz" = Done Demo.bundle) by evaluate.
  assert (h6 : first_kml (Zip.namelist Demo.bundle) = Some "Doc.KML")
    by evaluate.
  assert (h7 : Zip.read Demo.bundle "Doc.KML" = Done Demo.kml_bytes)
    by evaluate.
  assert (h8 : Demo.read_file "fields.kml" = Done Demo.kml_bytes) by evaluate.
  exact (conj h1 (conj h2 (conj h3 (conj h4 (conj h5 (conj h6 (conj h7 (conj h8
    (kmz_like_kml Demo.open_zip Demo.is_file Demo.read_file Demo.fromstring
       Sample.planar_area Sample.add_all "polygon_areas.csv"
       _ _ _ _ _ _ _ h1 h2 h3 h4 h5 h6 h7 h8))))))))).
Defined.

Lemma other_entries_ignored_witness :
  Demo.open_zip "fields.kmz" = Done Demo.bundle
  /\ Demo.open_zip_kml_only "fields.kmz"
     = Done (filter (fun entry => is_kml_name (fst entry)) Demo.bundle)
  /\ _extract_kml_from_kmz Demo.open_zip "fields.kmz"
     = _extract_kml_from_kmz Demo.open_zip_kml_only "fields.kmz".
Proof.
  assert (h1 : Demo.open_zip "fields.kmz" = Done Demo.bundle) by evaluate.
  assert (h2 : Demo.open_zip_kml_only "fields.kmz"
               = Done (filter (fun entry => is_kml_name (fst entry))
                         Demo.bundle)) by reflexivity.
  exact (conj h1 (conj h2 (other_entries_ignored _ _ _ _ h1 h2))).
Defined.

Lemma extract_polygon_coords_rings_witness :
  extract_polygon_coords Demo.holed_polygon
    = Ok (Some Sample.square_ring, [Demo.hole])
  /\ (exists outer_ring,
         ET.find_path outer_path Demo.holed_polygon = Some outer_ring
         /\ ring_of outer_ring Sample.square_ring)
  /\ Forall2 ring_of
       (filter has_text (ET.findall_path inner_path Demo.holed_polygon))
       [Demo.hole].
Proof.
  assert (h : extract_polygon_coords Demo.holed_polygon
              = Ok (Some Sample.square_ring, [Demo.hole])) by evaluate.
  exact (conj h (extract_polygon_coords_rings _ _ _ h)).
Defined.

Lemma placemark_without_polygon_ignored_witness :
  ET.find_descendant (ET.kml "Polygon") Sample.pm_point = None
  /\ main_loop Sample.planar_area []
       ([Sample.pm_acres] ++ Sample.pm_point :: [Sample.pm_furlongs])
     = main_loop Sample.planar_area []
         ([Sample.pm_acres] ++ [Sample.pm_furlongs]).
Proof.
  assert (h : ET.find_descendant (ET.kml "Polygon") Sample.pm_point = None)
    by evaluate.
  exact (conj h
    (placemark_without_polygon_ignored Sample.planar_area _ _ _ _ h)).
Defined.

Lemma textless_field_is_fatal_witness :
  In Demo.pm_nameless
     (ET.findall_descendants (ET.kml "Placemark")
        (Sample.document [Sample.pm_acres; Demo.pm_nameless]))
  /\ ET.find_descendant (ET.kml "Polygon") Demo.pm_nameless
     = Some Sample.square_polygon
  /\ (ET.find_path [ET.kml "name"] Demo.pm_nameless = Some Demo.nameless
      \/ ET.find_path [ET.kml "description"] Demo.pm_nameless
         = Some Demo.nameless)
  /\ ET.text Demo.nameless = None
  /\ exists e,
      status (Sample.run_main
                (Sample.document [Sample.pm_acres; Demo.pm_nameless]))
      = Uncaught e
      /\ csv (Sample.run_main
                (Sample.document [Sample.pm_acres; Demo.pm_nameless]))
         = None.
Proof.
  assert (h1 : In Demo.pm_nameless
                 (ET.findall_descendants (ET.kml "Placemark")
                    (Sample.document [Sample.pm_acres; Demo.pm_nameless]))).
  { vm_compute. right. left. reflexivity. }
  assert (h2 : ET.find_descendant (ET.kml "Polygon") Demo.pm_nameless
               = Some Sample.square_polygon) by evaluate.
  assert (h3 : ET.find_path [ET.kml "name"] Demo.pm_nameless
               = Some Demo.nameless
               \/ ET.find_path [ET.kml "description"] Demo.pm_nameless
                  = Some Demo.nameless).
  { left. evaluate. }
  assert (h4 : ET.text Demo.nameless = None) by reflexivity.
  exact (conj h1 (conj h2 (conj h3 (conj h4
    (textless_field_is_fatal Sample.planar_area Sample.add_all
       "polygon_areas.csv" _ _ _ _ h1 h2 h3 h4))))).
Defined.

Lemma later_child_ignored_witness :
  ET.find_descendant (ET.kml "Polygon")
    (Element (ET.kml "Placemark") None Demo.acres_children)
    = Some Sample.square_polygon
  /\ ET.has_tag (ET.kml "name") Sample.two_point_polygon = false
  /\ ET.has_tag (ET.kml "description") Sample.two_point_polygon = false
  /\ main_placemark Sample.planar_area
       (Element (ET.kml "Placemark") None
          (Demo.acres_children ++ [Sample.two_point_polygon]))
     = main_placemark Sample.planar_area
         (Element (ET.kml "Placemark") None Demo.acres_children).
Proof.
  assert (h1 : ET.find_descendant (ET.kml "Polygon")
                 (Element (ET.kml "Placemark") None Demo.acres_children)
               = Some Sample.square_polygon) by evaluate.
  assert (h2 : ET.has_tag (ET.kml "name") Sample.two_point_polygon = false)
    by evaluate.
  assert (h3 : ET.has_tag (ET.kml "description") Sample.two_point_polygon
               = false) by evaluate.
  exact (conj h1 (conj h2 (conj h3
    (later_child_ignored Sample.planar_area _ _ _ _ _ h1 h2 h3)))).
Defined.

Lemma main_loop_in_order_witness :
  main_loop Sample.planar_area []
    (ET.findall_descendants (ET.kml "Placemark") Sample.fields)
  = ([LogWarning
        "Unknown unit 'furlongs' for polygon 'Unnamed', calculating area instead.";
      GeometricArea Sample.square_ring []],
     Ok Sample.fields_results)
  /\ exists outcomes,
      Forall2 (fun pm o => main_placemark Sample.planar_area pm
                           = (fst o, Ok (snd o)))
        (ET.findall_descendants (ET.kml "Placemark") Sample.fields) outcomes
      /\ [LogWarning
            "Unknown unit 'furlongs' for polygon 'Unnamed', calculating area instead.";
          GeometricArea Sample.square_ring []]
         = List.concat (map fst outcomes)
      /\ Sample.fields_results = [] ++ rows_of outcomes.
Proof.
  assert (h : main_loop Sample.planar_area []
                (ET.findall_descendants (ET.kml "Placemark") Sample.fields)
              = ([LogWarning
                    "Unknown unit 'furlongs' for polygon 'Unnamed', calculating area instead.";
                  GeometricArea Sample.square_ring []],
                 Ok Sample.fields_results)) by evaluate.
  exact (conj h (main_loop_in_order Sample.planar_area _ _ _ _ h)).
Defined.

Lemma returned_run_rows_witness :
  status (Sample.run_main Sample.fields) = Returned
  /\ exists rows,
      csv (Sample.run_main Sample.fields) = Some rows
      /\ hd_error rows = Some ["Polygon Name"; "Total Acreage"; "Total"]
      /\ (2 <= List.length rows)%nat
      /\ Forall (fun row => List.length row = 3%nat) rows.
Proof.
  assert (h : status (Sample.run_main Sample.fields) = Returned) by evaluate.
  exact (conj h
    (returned_run_rows Sample.planar_area Sample.add_all
       "polygon_areas.csv" _ h)).
Defined.

Lemma geometric_path_matches_square_meters_witness :
  In (PyStr.lower "Square Meters")
     ["sq m"; "square meters"; "square metres"; "sq meter"; "sq metre"]
  /\ snd (calculated_acres Sample.planar_area Sample.square_ring [])
     = (area_m2 <- Sample.planar_area Sample.square_ring [] ;;
        convert_to_acres area_m2 "Square Meters").
Proof.
  assert (h : In (PyStr.lower "Square Meters")
                ["sq m"; "square meters"; "square metres"; "sq meter";
                 "sq metre"]).
  { right. left. vm_compute. reflexivity. }
  exact (conj h
    (geometric_path_matches_square_meters Sample.planar_area _ _ _ h)).
Defined.

Section GateFacts.

Variable open_zip : string -> io archive.
Variable is_file : string -> bool.
Variable read_file : string -> io string.
Variable fromstring : string -> parsed.
Variable projected_area : ring -> list ring -> result float.
Variable py_sum : list float -> float.
Variable csv_path : string.

(** X22. The loop over placemarks is reached only through the checks of
    the command line: with exactly one argument, naming an existing
    file; the bytes parsed are those of this file, taken from the
    document entry of the archive when the name ends in [.kmz] in some
    case, and read from the file itself when it does not and ends in
    [.kml]; these bytes parsed to a document, and the run is that of
    this document. *)
Theorem loop_reached_through_checks :
  forall (argv : list string) (r : run),
    main_script open_zip is_file read_file fromstring
      projected_area py_sum csv_path argv = Ran r ->
    exists script input_path kml_data root,
      argv = [script; input_path]
      /\ is_file input_path = true
      /\ ((endswith (PyStr.lower input_path) ".kmz" = true
           /\ _extract_kml_from_kmz open_zip input_path = Done kml_data)
          \/ (endswith (PyStr.lower input_path) ".kmz" = false
              /\ endswith (PyStr.lower input_path) ".kml" = true
              /\ read_file input_path = Done kml_data))
      /\ fromstring kml_data = Parsed root
      /\ r = main projected_area py_sum csv_path root.
Proof.
  intros argv r. unfold main_script.
  destruct argv as [|script [|input_path [|third rest]]];
    cbn [List.length Nat.eqb negb nth]; try discriminate.
  destruct (is_file input_path) eqn:Hf; cbn [negb]; [|discriminate].
  assert (Hparse : forall kml_data,
             main_parse fromstring projected_area py_sum csv_path kml_data
             = Ran r ->
             exists root, fromstring kml_data = Parsed root
                          /\ r = main projected_area py_sum csv_path root).
  { intros kml_data. unfold main_parse.
    destruct (fromstring kml_data) as [root|m|m]; try discriminate.
    intros H. exists root. split; [reflexivity | congruence]. }
  destruct (endswith (PyStr.lower input_path) ".kmz") eqn:Ez.
  - destruct (_extract_kml_from_kmz open_zip input_path) as [kml_data|m]
      eqn:Hx; [|discriminate].
    intros H. destruct (Hparse _ H) as (root & Hr & Hm).
    exists script, input_path, kml_data, root. auto 10.
  - destruct (endswith (PyStr.lower input_path) ".kml") eqn:Ek;
      [|discriminate].
    destruct (read_file input_path) as [kml_data|m] eqn:Hx; [|discriminate].
    intros H. destruct (Hparse _ H) as (root & Hr & Hm).
    exists script, input_path, kml_data, root. auto 10.
Qed.

End GateFacts.

Lemma loop_reached_through_checks_witness :
  Demo.run_script ["parse_polygons_to_csv.py"; "fields.kml"]
    = Ran (Sample.run_main Sample.fields)
  /\ exists script input_path kml_data root,
      ["parse_polygons_to_csv.py"; "fields.kml"] = [script; input_path]
      /\ Demo.is_file input_path = true
      /\ ((endswith (PyStr.lower input_path) ".kmz" = true
           /\ _extract_kml_from_kmz Demo.open_zip input_path = Done kml_data)
          \/ (endswith (PyStr.lower input_path) ".kmz" = false
              /\ endswith (PyStr.lower input_path) ".kml" = true
              /\ Demo.read_file input_path = Done kml_data))
      /\ Demo.fromstring kml_data = Parsed root
      /\ Sample.run_main Sample.fields
         = main Sample.planar_area Sample.add_all "polygon_areas.csv" root.
Proof.
  assert (h : Demo.run_script ["parse_polygons_to_csv.py"; "fields.kml"]
              = Ran (Sample.run_main Sample.fields)) by evaluate.
  exact (conj h
    (loop_reached_through_checks Demo.open_zip Demo.is_file Demo.read_file
       Demo.fromstring Sample.planar_area Sample.add_all "polygon_areas.csv"
       _ _ h)).
Defined.
